(** * ShadowVault: the vault component and its owner-provisioning stub

    A shallow embedding of [ShadowVault] (the React component) and of
    [getBiometricOwner] (utils/wallet.ts).  The component's state is the
    four [useState] cells; its two event handlers are written in a small
    writer/exception monad that records every state setter, every
    suspension point ([await]) and every call into the imported libraries
    (viem, permissionless).  The libraries themselves are an interface
    ([Sdk]) whose functions may return or throw any value, [null] and
    [undefined] included; the handlers are verified for every
    implementation of it. *)

From Stdlib Require Import String Ascii List ZArith QArith Qround Lia Bool Permutation.
From Stdlib Require Import DecimalString HexadecimalString.
From ExtLib Require Import Structures.Monad.
Import ListNotations.
Import MonadNotation.

Local Open Scope string_scope.
Local Open Scope Z_scope.
Local Open Scope monad_scope.

(* ===================================================================== *)
(** * JavaScript primitives used by the source *)
(* ===================================================================== *)

Module Js.

(** [String.prototype.slice(start, end)]: negative indices count from
    the end, both are clamped to the string, an empty span gives [""]. *)
Definition clamp (len i : Z) : Z :=
  if i <? 0 then Z.max (len + i) 0 else Z.min i len.

Definition slice (s : string) (start : Z) (end_ : option Z) : string :=
  let len := Z.of_nat (String.length s) in
  let from := clamp len start in
  let to := match end_ with None => len | Some e => clamp len e end in
  let span := Z.max (to - from) 0 in
  substring (Z.to_nat from) (Z.to_nat span) s.

(** Truthiness of a possibly missing string: [undefined], [null] and
    [""] are falsy. *)
Definition truthy (v : option string) : bool :=
  match v with
  | None => false
  | Some s => negb (s =? "")%string
  end.

(** [v || fallback] on a possibly missing string. *)
Definition or_else (v : option string) (fallback : string) : string :=
  match v with
  | Some s => if (s =? "")%string then fallback else s
  | None => fallback
  end.

(** [Math.floor] on a JavaScript number; the doubles that occur are
    dyadic rationals, so [Q] holds them exactly. *)
Definition Math_floor (x : Q) : Z := Qfloor x.

(** [Number.prototype.toString(16)] on an integer. *)
Definition toString16 (n : Z) : string :=
  match n with
  | Z0 => "0"
  | Zpos p => HexadecimalString.NilEmpty.string_of_uint (Pos.to_hex_uint p)
  | Zneg p => "-" ++ HexadecimalString.NilEmpty.string_of_uint (Pos.to_hex_uint p)
  end.

(** [String(n)] for an integer, as a template literal renders it. *)
Definition toString10 (n : Z) : string :=
  match n with
  | Z0 => "0"
  | Zpos p => DecimalString.NilEmpty.string_of_uint (Pos.to_uint p)
  | Zneg p => "-" ++ DecimalString.NilEmpty.string_of_uint (Pos.to_uint p)
  end.

(** A possibly missing string inside a template literal. *)
Definition template (v : option string) : string :=
  match v with Some s => s | None => "undefined" end.

(** [Array.prototype.join('')]. *)
Definition join (parts : list string) : string := String.concat "" parts.

End Js.

(* ===================================================================== *)
(** * Account addresses *)
(* ===================================================================== *)

Module Address.

Definition is_hex_digit (c : ascii) : bool :=
  let n := nat_of_ascii c in
  ((48 <=? n) && (n <=? 57) || (97 <=? n) && (n <=? 102)
   || (65 <=? n) && (n <=? 70))%nat.

Fixpoint all_hex (s : string) : bool :=
  match s with
  | EmptyString => true
  | String c r => is_hex_digit c && all_hex r
  end.

(** An account address is ["0x"] followed by exactly forty hexadecimal
    digits: forty-two characters in all. *)
Definition well_formed (a : string) : bool :=
  (substring 0 2 a =? "0x")%string
  && (String.length a =? 42)%nat
  && all_hex (substring 2 40 a).

End Address.

(* ===================================================================== *)
(** * Data model *)
(* ===================================================================== *)

(** A thrown value other than [null] and [undefined], as far as a
    [catch] clause reads it: its [message], which may be missing (a thrown
    primitive, an object without the property) or empty.  A [message] that
    is present is a string, as it is on every [Error]. *)
Record JsError := { message : option string }.

(** What a [catch (err: any)] clause receives: JavaScript lets any value
    be thrown, and a promise be rejected with any value, [null] and
    [undefined] included. *)
Inductive Thrown :=
| ThrownNull
| ThrownUndefined
| ThrownValue (err : JsError).

Coercion ThrownValue : JsError >-> Thrown.

Definition is_nullish (e : Thrown) : bool :=
  match e with
  | ThrownNull | ThrownUndefined => true
  | ThrownValue _ => false
  end.

(** Outcome of a call that may throw (or of a promise that may reject). *)
Inductive Result (A : Type) :=
| Ok (a : A)
| Throw (err : Thrown).
Arguments Ok {A} a.
Arguments Throw {A} err.

(** The [TypeError] raised by reading a property of [null] or
    [undefined] (the text is V8's). *)
Definition type_error (what : string) : JsError :=
  {| message := Some ("Cannot read properties of " ++ what
                        ++ " (reading 'message')") |}.

(** [PrivateKeyAccount]: the signing identity of the owner; the source
    reads its [address] only. *)
Record PrivateKeyAccount := { owner_address : string }.

(** The Safe account object and the smart-account client built around it;
    the source reads [client.account.address]. *)
Record SafeAccount := { address : string }.
Record SmartClient := { account : SafeAccount }.

Record Chain := { id : Z }.

(** [http(url)]; [http()] carries no URL. *)
Inductive Transport := http (url : option string).

(** [createPublicClient({ chain, transport })] and
    [createPimlicoClient({ transport })]: plain configuration holders. *)
Record PublicClient := { pc_chain : Chain; pc_transport : Transport }.
Record PimlicoClient := { pim_transport : Transport }.

(** [pimlicoClient.sponsorUserOperation], passed on as a hook. *)
Inductive SponsorHook := sponsorUserOperation (p : PimlicoClient).

(** Argument object of [toSafeSmartAccount]. *)
Record SafeParams := {
  sp_publicClient : PublicClient;
  sp_owner : PrivateKeyAccount;
  sp_entryPoint : string;
  sp_safeVersion : string;
  sp_saltNonce : Z
}.

(** Argument object of [createSmartAccountClient]. *)
Record ClientParams := {
  cp_account : SafeAccount;
  cp_chain : Chain;
  cp_bundlerTransport : Transport;
  cp_sponsorUserOperation : SponsorHook
}.

(** One entry of the array handed to [sendTransactions]. *)
Record Transaction := { to : string; data : string }.

(** The module [../constants], which is not part of the sources at hand:
    its four exports are taken as parameters. *)
Record Constants := {
  PIMLICO_API_KEY : option string;
  CHAIN : Chain;
  ENTRYPOINT_V07 : string;
  RECOVERY_MODULE_ADDR : string
}.

(** The imported library functions.  Each may throw; the asynchronous
    ones ([toSafeSmartAccount], [sendTransactions]) may reject. *)
Record Sdk := {
  privateKeyToAccount : string -> Result PrivateKeyAccount;
  toSafeSmartAccount : SafeParams -> Result SafeAccount;
  createSmartAccountClient : ClientParams -> Result SmartClient;
  encodeAbiParameters : string -> list string -> Z -> Z -> Result string;
  encodeFunctionData : string -> string -> list string -> Result string;
  sendTransactions : SmartClient -> list Transaction -> Result string
}.

(** The four [useState] cells of the component. *)
Record UiState := {
  smartClient : option SmartClient;
  status : string;
  loading : bool;
  error : option string
}.

Definition initial : UiState :=
  {| smartClient := None; status := "Idle"; loading := false; error := None |}.

(* ===================================================================== *)
(** * Effects *)
(* ===================================================================== *)

(** Everything a handler does that the outside can observe, in program
    order: state setters, console output, timers, suspension at an
    [await], and calls into the libraries with their arguments. *)
Inductive Event :=
| SetSmartClient (c : SmartClient)
| SetStatus (s : string)
| SetLoading (b : bool)
| SetError (e : option string)
| ConsoleLog (args : list string)
| ConsoleError (err : Thrown)
| SetTimeout (ms : Z)
| Suspend
| CallPrivateKeyToAccount (key : string)
| CallToSafeSmartAccount (p : SafeParams)
| CallCreateSmartAccountClient (p : ClientParams)
| CallEncodeAbiParameters (params : string) (guardians : list string)
                          (threshold delay : Z)
| CallEncodeFunctionData (abi functionName : string) (args : list string)
| CallSendTransactions (c : SmartClient) (batch : list Transaction).

(** A computation: the events it emitted, and how it ended. *)
Definition Act (A : Type) : Type := list Event * Result A.

Definition act_ret {A} (a : A) : Act A := ([], Ok a).

Definition act_bind {A B} (m : Act A) (k : A -> Act B) : Act B :=
  match m with
  | (l1, Ok a) => let '(l2, r) := k a in ((l1 ++ l2)%list, r)
  | (l1, Throw e) => (l1, Throw e)
  end.

#[global] Instance Monad_Act : Monad Act :=
  {| ret := @act_ret; bind := @act_bind |}.

Definition emit (e : Event) : Act unit := ([e], Ok tt).

(** A library call: logged, then it returns or throws. *)
Definition call {A} (e : Event) (r : Result A) : Act A := ([e], r).

(** [err.message] on a caught value: reading the property of [null] or
    [undefined] throws a [TypeError]. *)
Definition read_message (err : Thrown) : Act (option string) :=
  match err with
  | ThrownNull => ([], Throw (type_error "null"))
  | ThrownUndefined => ([], Throw (type_error "undefined"))
  | ThrownValue e => ([], Ok (message e))
  end.

(** [await p]: the promise's own effects happen, the caller is suspended,
    and on resumption the promise's value is returned or its rejection
    rethrown. *)
Definition await {A} (p : Act A) : Act A :=
  let '(l, r) := p in ((l ++ [Suspend])%list, r).

(** [try { body } catch (err) { handler } finally { fin }]. *)
Definition try_catch_finally {A} (body : Act A) (handler : Thrown -> Act A)
           (fin : Act unit) : Act A :=
  let '(l1, r1) := body in
  let '(l2, r2) := match r1 with
                   | Ok a => ([], Ok a)
                   | Throw e => handler e
                   end in
  let '(l3, r3) := fin in
  ((l1 ++ l2 ++ l3)%list, match r3 with Ok _ => r2 | Throw e => Throw e end).

Definition events {A} (m : Act A) : list Event := fst m.
Definition result {A} (m : Act A) : Result A := snd m.

(** The effect of one event on the component state. *)
Definition apply_event (s : UiState) (e : Event) : UiState :=
  match e with
  | SetSmartClient c =>
      {| smartClient := Some c; status := status s;
         loading := loading s; error := error s |}
  | SetStatus t =>
      {| smartClient := smartClient s; status := t;
         loading := loading s; error := error s |}
  | SetLoading b =>
      {| smartClient := smartClient s; status := status s;
         loading := b; error := error s |}
  | SetError e =>
      {| smartClient := smartClient s; status := status s;
         loading := loading s; error := e |}
  | _ => s
  end.

Definition apply_events (s : UiState) (l : list Event) : UiState :=
  fold_left apply_event l s.

(** The states in which the handler is suspended at an [await]: the ones
    the component can be rendered in while the action is in flight. *)
Fixpoint frames (s : UiState) (l : list Event) : list UiState :=
  match l with
  | [] => []
  | Suspend :: r => s :: frames s r
  | e :: r => frames (apply_event s e) r
  end.

(** The successive values written to the status text. *)
Fixpoint status_trace (l : list Event) : list string :=
  match l with
  | [] => []
  | SetStatus t :: r => t :: status_trace r
  | _ :: r => status_trace r
  end.

(** The successive values written to the loading flag. *)
Fixpoint loading_writes (l : list Event) : list bool :=
  match l with
  | [] => []
  | SetLoading b :: r => b :: loading_writes r
  | _ :: r => loading_writes r
  end.

(** The state while an action started in [s] is in flight under the
    status text [t]: loading, no error, client untouched. *)
Definition in_flight (s : UiState) (t : string) : UiState :=
  {| smartClient := smartClient s; status := t; loading := true; error := None |}.

(** The batches handed to [sendTransactions]. *)
Fixpoint submissions (l : list Event) : list (SmartClient * list Transaction) :=
  match l with
  | [] => []
  | CallSendTransactions c b :: r => (c, b) :: submissions r
  | _ :: r => submissions r
  end.

(** The (guardians, threshold, delay) triples handed to the ABI encoder. *)
Fixpoint encodings (l : list Event) : list (list string * Z * Z) :=
  match l with
  | [] => []
  | CallEncodeAbiParameters _ g t d :: r => (g, t, d) :: encodings r
  | _ :: r => encodings r
  end.

(* ===================================================================== *)
(** * The view *)
(* ===================================================================== *)

Inductive Icon :=
  Shield | Loader2 | Fingerprint | Lock | CheckCircle | Users | AlertTriangle.

(** What a button's [onClick] is bound to.  [enableRecovery] closes over
    the [smartClient] of the render that created the button. *)
Inductive Handler :=
| OnCreateVault
| OnEnableRecovery (closure : option SmartClient) (guardians : list string).

(** The handlers that start an action: vault creation, and recovery
    enablement with a client in its closure. *)
Definition starts_action (h : Handler) : bool :=
  match h with
  | OnCreateVault => true
  | OnEnableRecovery (Some _) _ => true
  | OnEnableRecovery None _ => false
  end.

(** The rendered tree, without its styling. *)
#[warnings="-register-all"]
Inductive Node :=
| Elem (tag : string) (children : list Node)
| Button (onClick : Handler) (disabled : bool) (children : list Node)
| Text (s : string)
| IconEl (i : Icon).

(** Every [onClick] in a tree, and the ones on enabled buttons. *)
Fixpoint handlers (n : Node) : list Handler :=
  match n with
  | Elem _ cs => flat_map handlers cs
  | Button h _ cs => h :: flat_map handlers cs
  | Text _ | IconEl _ => []
  end.

Fixpoint clickable (n : Node) : list Handler :=
  match n with
  | Elem _ cs => flat_map clickable cs
  | Button h d cs => (if d then [] else [h]) ++ flat_map clickable cs
  | Text _ | IconEl _ => []
  end%list.

Fixpoint texts (n : Node) : list string :=
  match n with
  | Elem _ cs => flat_map texts cs
  | Button _ _ cs => flat_map texts cs
  | Text s => [s]
  | IconEl _ => []
  end.

(** The guardian list written out in [GuardianButton]. *)
Definition sample_guardians : list string :=
  [ "0xdeadbeefdeadbeefdeadbeefdeadbeefdeadbeef";
    "0x1234567890123456789012345678901234567890";
    "0xfedcba9876543210fedcba9876543210fedcba98";
    "0xabcdef1234567890abcdef1234567890abcdef";
    "0x0987654321fedcba0987654321fedcba098765" ].

(* ===================================================================== *)
(** * utils/wallet.ts *)
(* ===================================================================== *)

Section Wallet.

Variable sdk : Sdk.

(** The successive results of [Math.random()]. *)
Variable random : nat -> Q.

(** ['0x' + Array(64).fill(0).map(() =>
      Math.floor(Math.random() * 16).toString(16)).join('')] *)
Definition randomPrivateKey : string :=
  "0x" ++ Js.join (map (fun i => Js.toString16 (Js.Math_floor (random i * 16)))
                       (seq 0 64)).

Definition getBiometricOwner : Act PrivateKeyAccount :=
  emit (ConsoleLog ["Simulating biometric prompt for owner key..."]) ;;
  await (emit (SetTimeout 1500)) ;;
  let privateKey := randomPrivateKey in
  account <- call (CallPrivateKeyToAccount privateKey)
                  (privateKeyToAccount sdk privateKey) ;;
  emit (ConsoleLog ["Biometric owner created (mock):"; owner_address account]) ;;
  ret account.

End Wallet.

(** The sixty-four values [Math.floor(Math.random() * 16)]. *)
Definition nibbles (random : nat -> Q) : list Z :=
  map (fun i => Js.Math_floor (random i * 16)) (seq 0 64).

(** The number a digit sequence denotes, most significant digit first. *)
Definition scalar (ns : list Z) : Z := fold_left (fun a d => 16 * a + d) ns 0.

(** [Math.random()] returns a number in [0, 1). *)
Definition in_unit_interval (random : nat -> Q) : Prop :=
  forall i, (0 <= random i)%Q /\ (random i < 1)%Q.

(* ===================================================================== *)
(** * The component *)
(* ===================================================================== *)

Section ShadowVault.

Variable K : Constants.
Variable sdk : Sdk.
Variable random : nat -> Q.

Definition rpcUrl : string :=
  "https://api.pimlico.io/v2/" ++ Js.toString10 (id (CHAIN K))
    ++ "/rpc?apikey=" ++ Js.template (PIMLICO_API_KEY K).

Definition publicClient : PublicClient :=
  {| pc_chain := CHAIN K; pc_transport := http None |}.

Definition pimlicoClient : PimlicoClient :=
  {| pim_transport := http (Some rpcUrl) |}.

(** The object literal passed to [toSafeSmartAccount]. *)
Definition safeParams (owner : PrivateKeyAccount) : SafeParams :=
  {| sp_publicClient := publicClient;
     sp_owner := owner;
     sp_entryPoint := ENTRYPOINT_V07 K;
     sp_safeVersion := "1.4.1";
     sp_saltNonce := 0 |}.

(** The object literal passed to [createSmartAccountClient]. *)
Definition clientParams (safeAccount : SafeAccount) : ClientParams :=
  {| cp_account := safeAccount;
     cp_chain := CHAIN K;
     cp_bundlerTransport := http (Some rpcUrl);
     cp_sponsorUserOperation := sponsorUserOperation pimlicoClient |}.

Definition createVault : Act unit :=
  emit (SetLoading true) ;;
  emit (SetError None) ;;
  emit (SetStatus "Initializing Biometric Vault...") ;;
  try_catch_finally
    (owner <- await (getBiometricOwner sdk random) ;;
     safeAccount <- await (call (CallToSafeSmartAccount (safeParams owner))
                                (toSafeSmartAccount sdk (safeParams owner))) ;;
     client <- call (CallCreateSmartAccountClient (clientParams safeAccount))
                    (createSmartAccountClient sdk (clientParams safeAccount)) ;;
     emit (SetSmartClient client) ;;
     emit (SetStatus ("Vault Active: "
                        ++ Js.slice (address (account client)) 0 (Some 6)
                        ++ "..."
                        ++ Js.slice (address (account client)) (-4) None)))
    (fun err =>
       emit (ConsoleError err) ;;
       msg <- read_message err ;;
       let errorMessage := Js.or_else msg "An unknown error occurred." in
       emit (SetStatus "Initialization Failed") ;;
       emit (SetError (Some errorMessage)))
    (emit (SetLoading false)).

Definition setup_params : string :=
  "address[] guardians, uint256 threshold, uint256 delay".

(** The array literal passed to [sendTransactions]. *)
Definition recovery_batch (smartClient : SmartClient)
           (moduleSetupData setupCall : string) : list Transaction :=
  [ {| to := address (account smartClient); data := moduleSetupData |};
    {| to := RECOVERY_MODULE_ADDR K; data := setupCall |} ].

Definition enableModule_abi : string := "function enableModule(address module)".
Definition setup_abi : string := "function setup(bytes calldata data)".

Definition enableRecovery (smartClient : option SmartClient)
           (guardians : list string) : Act unit :=
  match smartClient with
  | None => ret tt
  | Some smartClient =>
      emit (SetLoading true) ;;
      emit (SetError None) ;;
      emit (SetStatus "Configuring 3-of-5 Guardian Protocol...") ;;
      try_catch_finally
        (setupData <- call (CallEncodeAbiParameters setup_params guardians 3 (48 * 3600))
                           (encodeAbiParameters sdk setup_params guardians 3 (48 * 3600)) ;;
         moduleSetupData <-
           call (CallEncodeFunctionData enableModule_abi "enableModule"
                                        [RECOVERY_MODULE_ADDR K])
                (encodeFunctionData sdk enableModule_abi "enableModule"
                                    [RECOVERY_MODULE_ADDR K]) ;;
         setupCall <-
           call (CallEncodeFunctionData setup_abi "setup" [setupData])
                (encodeFunctionData sdk setup_abi "setup" [setupData]) ;;
         let batch := recovery_batch smartClient moduleSetupData setupCall in
         txHash <- await (call (CallSendTransactions smartClient batch)
                               (sendTransactions sdk smartClient batch)) ;;
         emit (SetStatus ("Recovery Protocol Live: "
                            ++ Js.slice txHash 0 (Some 10) ++ "...")))
        (fun err =>
           emit (ConsoleError err) ;;
           emit (SetStatus "Recovery Setup Failed") ;;
           msg <- read_message err ;;
           emit (SetError (Some (Js.or_else msg "An unknown error occurred."))))
        (emit (SetLoading false))
  end.

Definition GuardianButton (st : UiState) : Node :=
  Button (OnEnableRecovery (smartClient st) sample_guardians) (loading st)
    [ (if loading st then IconEl Loader2 else IconEl Users);
      Text "SETUP 3-OF-5 GUARDIANS" ].

Definition config_error_view : Node :=
  Elem "div"
    [ IconEl AlertTriangle;
      Elem "h2" [Text "Configuration Error"];
      Elem "p" [Text "Pimlico API key is missing. Please set the `API_KEY` environment variable to continue."] ].

Definition ShadowVault (st : UiState) : Node :=
  if negb (Js.truthy (PIMLICO_API_KEY K)) then config_error_view
  else
    Elem "div"
      [ Elem "div" [IconEl Shield; Elem "h1" [Text "SHADOWVAULT"]; IconEl Lock];
        match smartClient st with
        | None =>
            Button OnCreateVault (loading st)
              [ (if loading st then IconEl Loader2 else IconEl Fingerprint);
                Text "CREATE SECURE VAULT" ]
        | Some c =>
            Elem "div"
              [ IconEl CheckCircle;
                Elem "div" [ Elem "p" [Text "Vault Address"];
                             Elem "code" [Text (address (account c))] ];
                GuardianButton st ]
        end;
        Elem "div"
          (Elem "p" [Text (status st)]
           :: (if Js.truthy (error st)
               then [Elem "p" [Text (Js.template (error st))]]
               else [])) ].

(** Running the handler a button is bound to. *)
Definition run_handler (h : Handler) : Act unit :=
  match h with
  | OnCreateVault => createVault
  | OnEnableRecovery closure guardians => enableRecovery closure guardians
  end.

(** The state once the handler has run to completion. *)
Definition click (st : UiState) (h : Handler) : UiState :=
  apply_events st (events (run_handler h)).

(** One user interaction: pressing an enabled button of the current view. *)
Inductive step : UiState -> UiState -> Prop :=
| step_click st h :
    In h (clickable (ShadowVault st)) -> step st (click st h).

Inductive reachable : UiState -> Prop :=
| reach_initial : reachable initial
| reach_step st st' : reachable st -> step st st' -> reachable st'.

(** ** How the library calls of an action can turn out *)

(** Vault creation fails at owner provisioning, at account construction
    or at client construction. *)
Inductive vault_fails : Thrown -> Prop :=
| owner_provisioning_fails e :
    privateKeyToAccount sdk (randomPrivateKey random) = Throw e ->
    vault_fails e
| account_construction_fails owner e :
    privateKeyToAccount sdk (randomPrivateKey random) = Ok owner ->
    toSafeSmartAccount sdk (safeParams owner) = Throw e ->
    vault_fails e
| client_construction_fails owner safeAccount e :
    privateKeyToAccount sdk (randomPrivateKey random) = Ok owner ->
    toSafeSmartAccount sdk (safeParams owner) = Ok safeAccount ->
    createSmartAccountClient sdk (clientParams safeAccount) = Throw e ->
    vault_fails e.

(** All three steps return. *)
Inductive vault_built : SmartClient -> Prop :=
| vault_built_from owner safeAccount client :
    privateKeyToAccount sdk (randomPrivateKey random) = Ok owner ->
    toSafeSmartAccount sdk (safeParams owner) = Ok safeAccount ->
    createSmartAccountClient sdk (clientParams safeAccount) = Ok client ->
    vault_built client.

(** The three encodings of [enableRecovery] return, giving the batch. *)
Inductive recovery_encoded (c : SmartClient) (guardians : list string)
  : list Transaction -> Prop :=
| recovery_encoded_from setupData moduleSetupData setupCall :
    encodeAbiParameters sdk setup_params guardians 3 (48 * 3600) = Ok setupData ->
    encodeFunctionData sdk enableModule_abi "enableModule"
                       [RECOVERY_MODULE_ADDR K] = Ok moduleSetupData ->
    encodeFunctionData sdk setup_abi "setup" [setupData] = Ok setupCall ->
    recovery_encoded c guardians (recovery_batch c moduleSetupData setupCall).

(** An encoding throws before anything is submitted. *)
Inductive encoding_fails (guardians : list string) : Thrown -> Prop :=
| guardians_encoding_fails e :
    encodeAbiParameters sdk setup_params guardians 3 (48 * 3600) = Throw e ->
    encoding_fails guardians e
| enableModule_encoding_fails setupData e :
    encodeAbiParameters sdk setup_params guardians 3 (48 * 3600) = Ok setupData ->
    encodeFunctionData sdk enableModule_abi "enableModule"
                       [RECOVERY_MODULE_ADDR K] = Throw e ->
    encoding_fails guardians e
| setup_encoding_fails setupData moduleSetupData e :
    encodeAbiParameters sdk setup_params guardians 3 (48 * 3600) = Ok setupData ->
    encodeFunctionData sdk enableModule_abi "enableModule"
                       [RECOVERY_MODULE_ADDR K] = Ok moduleSetupData ->
    encodeFunctionData sdk setup_abi "setup" [setupData] = Throw e ->
    encoding_fails guardians e.

(** The batch is built and its submission is rejected. *)
Inductive submission_fails (c : SmartClient) (guardians : list string)
  : Thrown -> Prop :=
| submission_rejected batch e :
    recovery_encoded c guardians batch ->
    sendTransactions sdk c batch = Throw e ->
    submission_fails c guardians e.

(** The batch is built and its submission returns a hash. *)
Inductive submission_succeeds (c : SmartClient) (guardians : list string)
  : list Transaction -> string -> Prop :=
| submission_accepted batch txHash :
    recovery_encoded c guardians batch ->
    sendTransactions sdk c batch = Ok txHash ->
    submission_succeeds c guardians batch txHash.

End ShadowVault.

(* ===================================================================== *)
(** * Observations on a run, and the component in a changing environment *)
(* ===================================================================== *)

(** What the [catch] blocks leave in the error cell for a caught value:
    its message or the fallback text; nothing when reading [message]
    throws. *)
Definition shown_error (e : Thrown) : option string :=
  match e with
  | ThrownValue err => Some (Js.or_else (message err) "An unknown error occurred.")
  | ThrownNull | ThrownUndefined => None
  end.

(** How a handler ends after catching [e]: normally, or with the
    [TypeError] of its own [catch] block. *)
Definition after_catch (e : Thrown) : Result unit :=
  match e with
  | ThrownValue _ => Ok tt
  | ThrownNull => Throw (type_error "null")
  | ThrownUndefined => Throw (type_error "undefined")
  end.


(** The calls into the libraries, in the order they were made. *)
Definition is_library_call (e : Event) : bool :=
  match e with
  | CallPrivateKeyToAccount _ | CallToSafeSmartAccount _
  | CallCreateSmartAccountClient _ | CallEncodeAbiParameters _ _ _ _
  | CallEncodeFunctionData _ _ _ | CallSendTransactions _ _ => true
  | _ => false
  end.

Definition library_calls (l : list Event) : list Event := filter is_library_call l.



(** The clients passed to [setSmartClient]. *)
Fixpoint client_writes (l : list Event) : list SmartClient :=
  match l with
  | [] => []
  | SetSmartClient c :: r => c :: client_writes r
  | _ :: r => client_writes r
  end.

(** The action a handler starts fails with the thrown value [e]. *)
Definition action_fails (K : Constants) (sdk : Sdk) (random : nat -> Q)
           (h : Handler) (e : Thrown) : Prop :=
  match h with
  | OnCreateVault => vault_fails K sdk random e
  | OnEnableRecovery (Some c) g =>
      encoding_fails K sdk g e \/ submission_fails K sdk c g e
  | OnEnableRecovery None _ => False
  end.

(** One press of an enabled button.  The libraries and [Math.random] may
    answer differently at every press. *)
Inductive interaction (K : Constants) : UiState -> UiState -> Prop :=
| interaction_click sdk random st h :
    In h (clickable (ShadowVault K st)) ->
    interaction K st (click K sdk random st h).

(** The states the component can be in between two presses. *)
Inductive session (K : Constants) : UiState -> Prop :=
| session_start : session K initial
| session_next st st' : session K st -> interaction K st st' -> session K st'.

(** The seven kinds of state the component displays between actions.  The
    two "aborted" ones are left behind when a [catch] block is handed
    [null] or [undefined]: vault creation has not yet replaced the
    in-progress status, recovery enablement has set the failure status
    but no error. *)
Inductive at_rest : UiState -> Prop :=
| rest_idle :
    at_rest {| smartClient := None; status := "Idle";
               loading := false; error := None |}
| rest_creation_aborted :
    at_rest {| smartClient := None; status := "Initializing Biometric Vault...";
               loading := false; error := None |}
| rest_recovery_aborted c :
    at_rest {| smartClient := Some c; status := "Recovery Setup Failed";
               loading := false; error := None |}
| rest_creation_failed m :
    m <> "" ->
    at_rest {| smartClient := None; status := "Initialization Failed";
               loading := false; error := Some m |}
| rest_vault_active c :
    at_rest {| smartClient := Some c;
               status := "Vault Active: "
                           ++ Js.slice (address (account c)) 0 (Some 6)
                           ++ "..." ++ Js.slice (address (account c)) (-4) None;
               loading := false; error := None |}
| rest_recovery_live c txHash :
    at_rest {| smartClient := Some c;
               status := "Recovery Protocol Live: "
                           ++ Js.slice txHash 0 (Some 10) ++ "...";
               loading := false; error := None |}
| rest_recovery_failed c m :
    m <> "" ->
    at_rest {| smartClient := Some c; status := "Recovery Setup Failed";
               loading := false; error := Some m |}.

(* ===================================================================== *)
(** * A double of the libraries *)
(* ===================================================================== *)

(** A deterministic stand-in for viem and permissionless, used to run the
    handlers on concrete inputs.  It keeps the two input checks of the
    real libraries that the handlers can run into: the ABI encoder
    rejects a value of type [address] that is not ["0x"] plus forty
    hexadecimal digits, and [privateKeyToAccount] rejects a scalar
    outside [1, n-1] for the secp256k1 group order [n].  Encodings are
    symbolic (the call written out), not bytes. *)
Module Double.

Definition secp256k1_n : Z :=
  0xFFFFFFFFFFFFFFFFFFFFFFFFFFFFFFFEBAAEDCE6AF48A03BBFD25E8CD0364141.

Definition digit_value (c : ascii) : option Z :=
  let n := Z.of_nat (nat_of_ascii c) in
  if (48 <=? n) && (n <=? 57) then Some (n - 48)
  else if (97 <=? n) && (n <=? 102) then Some (n - 87)
  else if (65 <=? n) && (n <=? 70) then Some (n - 55)
  else None.

Fixpoint hex_value (acc : Z) (s : string) : option Z :=
  match s with
  | EmptyString => Some acc
  | String c r =>
      match digit_value c with
      | Some d => hex_value (16 * acc + d) r
      | None => None
      end
  end.

Definition scalar_of_key (key : string) : option Z :=
  if ((substring 0 2 key =? "0x")%string && (String.length key =? 66)%nat)%bool
  then hex_value 0 (substring 2 64 key)
  else None.

Definition invalid_key : JsError :=
  {| message := Some "invalid private key" |}.

Definition privateKeyToAccount (key : string) : Result PrivateKeyAccount :=
  match scalar_of_key key with
  | Some k =>
      if (0 <? k) && (k <? secp256k1_n)
      then Ok {| owner_address := "0x" ++ substring 26 40 key |}
      else Throw invalid_key
  | None => Throw invalid_key
  end.

Definition safe_address : string := "0x5afe5afe5afe5afe5afe5afe5afe5afe5afe5afe".

Definition toSafeSmartAccount (p : SafeParams) : Result SafeAccount :=
  Ok {| address := safe_address |}.

Definition createSmartAccountClient (p : ClientParams) : Result SmartClient :=
  Ok {| account := cp_account p |}.

Definition invalid_address (a : string) : JsError :=
  {| message := Some ("Address " ++ a ++ " is invalid.") |}.

Definition encodeAbiParameters (params : string) (guardians : list string)
           (threshold delay : Z) : Result string :=
  match find (fun a => negb (Address.well_formed a)) guardians with
  | Some bad => Throw (invalid_address bad)
  | None =>
      Ok ("([" ++ String.concat "," guardians ++ "]," ++ Js.toString10 threshold
               ++ "," ++ Js.toString10 delay ++ ")")
  end.

Definition encodeFunctionData (abi functionName : string) (args : list string)
  : Result string :=
  Ok (functionName ++ "(" ++ String.concat "," args ++ ")").

Definition tx_hash : string :=
  "0x9f3c1b7a5d2e4f60718293a4b5c6d7e8f9012a3b4c5d6e7f8091a2b3c4d5e6f7".

Definition sendTransactions (c : SmartClient) (batch : list Transaction)
  : Result string := Ok tx_hash.

Definition sdk : Sdk :=
  Build_Sdk privateKeyToAccount toSafeSmartAccount createSmartAccountClient
            encodeAbiParameters encodeFunctionData sendTransactions.

(** The same libraries with the bundler unreachable. *)
Definition bundler_down : JsError := {| message := Some "HTTP request failed." |}.

Definition offline : Sdk :=
  Build_Sdk privateKeyToAccount toSafeSmartAccount createSmartAccountClient
            encodeAbiParameters encodeFunctionData
            (fun _ _ => Throw bundler_down).

Definition constants : Constants :=
  {| PIMLICO_API_KEY := Some "pim_test_key";
     CHAIN := {| id := 11155111 |};
     ENTRYPOINT_V07 := "0x0000000071727De22E5E9d8BAf0edAc6f37da032";
     RECOVERY_MODULE_ADDR := "0x1111111111111111111111111111111111111111" |}.

Definition unconfigured : Constants :=
  {| PIMLICO_API_KEY := None;
     CHAIN := {| id := 11155111 |};
     ENTRYPOINT_V07 := "0x0000000071727De22E5E9d8BAf0edAc6f37da032";
     RECOVERY_MODULE_ADDR := "0x1111111111111111111111111111111111111111" |}.

Definition client : SmartClient := {| account := {| address := safe_address |} |}.

(** Five well-formed guardians. *)
Definition guardians : list string :=
  [ "0xdeadbeefdeadbeefdeadbeefdeadbeefdeadbeef";
    "0x1234567890123456789012345678901234567890";
    "0xfedcba9876543210fedcba9876543210fedcba98";
    "0xabcdef1234567890abcdef1234567890abcdef12";
    "0x0987654321fedcba0987654321fedcba09876543" ].

(** [Math.random()] returning 1/2 every time, and 0 every time. *)
Definition half : nat -> Q := fun _ => 1 # 2.
Definition zero : nat -> Q := fun _ => 0 # 1.

End Double.

(** A library whose every failure is a thrown value without a [message]. *)
Module Faulty.

Definition nameless : JsError := {| message := None |}.

Definition sdk : Sdk :=
  Build_Sdk (fun _ => Throw nameless) (fun _ => Throw nameless)
            (fun _ => Throw nameless) (fun _ _ _ _ => Throw nameless)
            (fun _ _ _ => Throw nameless) (fun _ _ => Throw nameless).

(** Every library call throws [undefined]. *)
Definition throws_undefined : Sdk :=
  Build_Sdk (fun _ => Throw ThrownUndefined) (fun _ => Throw ThrownUndefined)
            (fun _ => Throw ThrownUndefined) (fun _ _ _ _ => Throw ThrownUndefined)
            (fun _ _ _ => Throw ThrownUndefined) (fun _ _ => Throw ThrownUndefined).

(** The libraries of [Double], with a bundler whose promise rejects with
    [undefined]. *)
Definition rejects_undefined : Sdk :=
  Build_Sdk Double.privateKeyToAccount Double.toSafeSmartAccount
            Double.createSmartAccountClient Double.encodeAbiParameters
            Double.encodeFunctionData (fun _ _ => Throw ThrownUndefined).

End Faulty.

(** The stream of draws that spells a given digit sequence. *)
Definition draws_for (ns : list Z) : nat -> Q :=
  fun i => (inject_Z (nth i ns 0%Z) / 16)%Q.

(* ===================================================================== *)
(** * Facts about the JavaScript primitives *)
(* ===================================================================== *)

Lemma substring_whole_prefix (s : string) (n : nat) :
  substring 0 (Nat.min n (String.length s)) s = substring 0 n s.
Proof.
  revert n; induction s as [|c s IH]; intros [|n]; simpl; try reflexivity.
  now rewrite IH.
Qed.

(** [s.slice(0, n)] is the first [n] characters of [s] (all of [s] when it
    is shorter). *)
Lemma slice_first (s : string) (n : Z) :
  0 <= n -> Js.slice s 0 (Some n) = substring 0 (Z.to_nat n) s.
Proof.
  intros Hn. unfold Js.slice, Js.clamp.
  set (len := Z.of_nat (String.length s)).
  assert (Hlen : 0 <= len) by (unfold len; lia).
  replace (0 <? 0) with false by reflexivity.
  destruct (Z.ltb_spec n 0) as [?|_]; [lia|].
  rewrite (Z.min_l 0 len) by lia.
  rewrite Z.sub_0_r, Z.max_l by lia.
  change (Z.to_nat 0) with 0%nat.
  rewrite <- (substring_whole_prefix s (Z.to_nat n)).
  f_equal. unfold len. lia.
Qed.

(** [s.slice(-n)] is the last [n] characters of [s] (all of [s] when it is
    shorter). *)
Lemma slice_last (s : string) (n : Z) :
  0 < n ->
  Js.slice s (- n) None
  = substring (String.length s - Z.to_nat n) (Z.to_nat n) s.
Proof.
  intros Hn. unfold Js.slice, Js.clamp.
  set (len := Z.of_nat (String.length s)).
  assert (Hlen : 0 <= len) by (unfold len; lia).
  destruct (Z.ltb_spec (- n) 0) as [_|?]; [|lia].
  replace (Z.to_nat (Z.max (len + - n) 0))
    with (String.length s - Z.to_nat n)%nat by (unfold len; lia).
  destruct (Z.le_gt_cases n len) as [Hle|Hgt].
  - f_equal. lia.
  - replace (String.length s - Z.to_nat n)%nat with 0%nat by (unfold len in Hgt; lia).
    rewrite <- (substring_whole_prefix s (Z.to_nat n)).
    f_equal. unfold len in *. lia.
Qed.

Lemma or_else_nonempty (v : option string) (fallback : string) :
  fallback <> "" -> Js.or_else v fallback <> "".
Proof.
  intros Hf. unfold Js.or_else.
  destruct v as [s|]; [|exact Hf].
  destruct (String.eqb_spec s ""); [exact Hf|assumption].
Qed.

Lemma or_else_truthy (v : option string) (fallback : string) :
  fallback <> "" -> Js.truthy (Some (Js.or_else v fallback)) = true.
Proof.
  intros Hf. unfold Js.truthy.
  destruct (String.eqb_spec (Js.or_else v fallback) "") as [E|_]; [|reflexivity].
  exfalso. exact (or_else_nonempty v fallback Hf E).
Qed.

Lemma unknown_error_nonempty : "An unknown error occurred." <> "".
Proof. discriminate. Qed.

(* ===================================================================== *)
(** * The two actions, case by case *)
(* ===================================================================== *)

Arguments Js.slice : simpl never.
Arguments Js.or_else : simpl never.
Arguments randomPrivateKey : simpl never.

Ltac unfold_action :=
  unfold click, run_handler, events, result, createVault, enableRecovery,
    getBiometricOwner, try_catch_finally, await, call, emit, recovery_batch,
    shown_error, after_catch in *;
  change (48 * 3600) with 172800 in *;
  cbn.

(** Case analysis on every library answer the goal depends on, thrown
    [null] and [undefined] included. *)
Ltac case_results :=
  repeat (cbn;
          match goal with
          | |- context [match ?x with Ok _ => _ | Throw _ => _ end] =>
              destruct x as [?|[| |?]]
          end);
  cbn.

Section Actions.

Variable K : Constants.
Variable sdk : Sdk.
Variable random : nat -> Q.

Local Abbreviation createVault := (createVault K sdk random).
Local Abbreviation enableRecovery := (enableRecovery K sdk).
Local Abbreviation click := (click K sdk random).

Ltac split_thrown :=
  repeat match goal with
         | e : Thrown |- _ => destruct e as [| |?err]
         end;
  cbn.

Ltac vault_cases :=
  unfold_action;
  destruct (privateKeyToAccount sdk (randomPrivateKey random)) as [?owner|?e]; cbn;
  [ match goal with
    | o : PrivateKeyAccount |- _ =>
        destruct (toSafeSmartAccount sdk (safeParams K o)) as [?safe|?e]; cbn;
        [ match goal with
          | a : SafeAccount |- _ =>
              destruct (createSmartAccountClient sdk (clientParams K a))
                as [?client|?e]; cbn
          end | ]
    end | ];
  split_thrown.

Ltac recovery_cases g :=
  unfold_action;
  destruct (encodeAbiParameters sdk setup_params g 3 172800) as [?setupData|?e]; cbn;
  [ destruct (encodeFunctionData sdk enableModule_abi "enableModule"
                                 [RECOVERY_MODULE_ADDR K]) as [?d1|?e]; cbn;
    [ match goal with
      | sd : string |- _ =>
          destruct (encodeFunctionData sdk setup_abi "setup" [sd]) as [?d2|?e]; cbn;
          [ match goal with
            | |- context [sendTransactions sdk ?c ?b] =>
                destruct (sendTransactions sdk c b) as [?txHash|?e]; cbn
            end | ]
      end | ] | ];
  split_thrown.

Ltac use_equations :=
  repeat match goal with
         | H : ?call = Ok _ |- context [?call] => rewrite H; clear H; cbn
         | H : ?call = Throw _ |- context [?call] => rewrite H; clear H; cbn
         end.

Ltac by_outcome H :=
  destruct H; split_thrown; unfold_action; use_equations; reflexivity.

Lemma vault_fails_or_built :
  (exists e, vault_fails K sdk random e) \/ (exists c, vault_built K sdk random c).
Proof.
  destruct (privateKeyToAccount sdk (randomPrivateKey random)) as [owner|e] eqn:E1.
  2: { left; exists e; now constructor 1. }
  destruct (toSafeSmartAccount sdk (safeParams K owner)) as [safe|e] eqn:E2.
  2: { left; exists e; econstructor 2; eauto. }
  destruct (createSmartAccountClient sdk (clientParams K safe)) as [c|e] eqn:E3.
  2: { left; exists e; econstructor 3; eauto. }
  right; exists c; econstructor; eauto.
Qed.


(** ** [createVault] *)

(** A failed step leaves the client cell alone.  The [catch] block sets
    the failure status after reading [err.message], so for a thrown [null]
    or [undefined] the status stays as it was and no error is set. *)
Lemma createVault_failure_state e st :
  vault_fails K sdk random e ->
  click st OnCreateVault
  = {| smartClient := smartClient st;
       status := if is_nullish e then "Initializing Biometric Vault..."
                 else "Initialization Failed";
       loading := false;
       error := shown_error e |}.
Proof. intros H; by_outcome H. Qed.

Lemma createVault_failure_result e :
  vault_fails K sdk random e -> result createVault = after_catch e.
Proof. intros H; by_outcome H. Qed.

Lemma createVault_success_result c :
  vault_built K sdk random c -> result createVault = Ok tt.
Proof. intros H; by_outcome H. Qed.

Lemma createVault_success_state c st :
  vault_built K sdk random c ->
  click st OnCreateVault
  = {| smartClient := Some c;
       status := "Vault Active: " ++ Js.slice (address (account c)) 0 (Some 6)
                   ++ "..." ++ Js.slice (address (account c)) (-4) None;
       loading := false;
       error := None |}.
Proof. intros H; by_outcome H. Qed.

Lemma createVault_failure_trace e :
  vault_fails K sdk random e ->
  status_trace (events createVault)
  = "Initializing Biometric Vault..."
      :: (if is_nullish e then [] else ["Initialization Failed"]).
Proof. intros H; by_outcome H. Qed.

Lemma createVault_success_trace c :
  vault_built K sdk random c ->
  status_trace (events createVault)
  = ["Initializing Biometric Vault...";
     "Vault Active: " ++ Js.slice (address (account c)) 0 (Some 6)
       ++ "..." ++ Js.slice (address (account c)) (-4) None].
Proof. intros H; by_outcome H. Qed.

(** The handler is suspended at least once, and always in the same state. *)
Lemma createVault_frames st :
  exists n,
    frames st (events createVault)
    = repeat (in_flight st "Initializing Biometric Vault...") (S n).
Proof.
  vault_cases; unfold in_flight;
    ((exists 0%nat; reflexivity) || (exists 1%nat; reflexivity)
     || (exists 2%nat; reflexivity)).
Qed.

Lemma createVault_loading_writes :
  loading_writes (events createVault) = [true; false].
Proof. vault_cases; reflexivity. Qed.

Lemma createVault_starts :
  exists rest,
    events createVault
    = SetLoading true :: SetError None
        :: SetStatus "Initializing Biometric Vault..." :: rest.
Proof. vault_cases; eexists; reflexivity. Qed.

Lemma createVault_ends :
  exists before, events createVault = (before ++ [SetLoading false])%list.
Proof.
  vault_cases;
    match goal with
    | |- exists b, ?l = _ => exists (removelast l); reflexivity
    end.
Qed.

(** ** [enableRecovery] *)

Lemma enableRecovery_without_client g :
  enableRecovery None g = ([], Ok tt).
Proof. reflexivity. Qed.

Lemma enableRecovery_encoding_failure_result c g e :
  encoding_fails K sdk g e ->
  result (enableRecovery (Some c) g) = after_catch e.
Proof. intros H; by_outcome H. Qed.

Lemma enableRecovery_submission_failure_result c g e :
  submission_fails K sdk c g e ->
  result (enableRecovery (Some c) g) = after_catch e.
Proof. intros [? ? H ?]; by_outcome H. Qed.

Lemma enableRecovery_success_result c g batch txHash :
  submission_succeeds K sdk c g batch txHash ->
  result (enableRecovery (Some c) g) = Ok tt.
Proof. intros [? ? H ?]; by_outcome H. Qed.

Lemma enableRecovery_success_state c g batch txHash st :
  submission_succeeds K sdk c g batch txHash ->
  click st (OnEnableRecovery (Some c) g)
  = {| smartClient := smartClient st;
       status := "Recovery Protocol Live: " ++ Js.slice txHash 0 (Some 10) ++ "...";
       loading := false;
       error := None |}.
Proof. intros [? ? H ?]; by_outcome H. Qed.

Lemma enableRecovery_encoding_failure_state c g e st :
  encoding_fails K sdk g e ->
  click st (OnEnableRecovery (Some c) g)
  = {| smartClient := smartClient st;
       status := "Recovery Setup Failed";
       loading := false;
       error := shown_error e |}.
Proof. intros H; by_outcome H. Qed.

Lemma enableRecovery_submission_failure_state c g e st :
  submission_fails K sdk c g e ->
  click st (OnEnableRecovery (Some c) g)
  = {| smartClient := smartClient st;
       status := "Recovery Setup Failed";
       loading := false;
       error := shown_error e |}.
Proof. intros [? ? H ?]; by_outcome H. Qed.

(** Whatever is submitted is one batch, built from the three encodings. *)
Lemma enableRecovery_submissions c g :
  submissions (events (enableRecovery (Some c) g)) = []
  \/ exists batch,
      recovery_encoded K sdk c g batch
      /\ submissions (events (enableRecovery (Some c) g)) = [(c, batch)].
Proof.
  destruct (encodeAbiParameters sdk setup_params g 3 (48 * 3600))
    as [setupData|e] eqn:E1.
  2: { left. split_thrown; unfold_action; use_equations; reflexivity. }
  destruct (encodeFunctionData sdk enableModule_abi "enableModule"
                               [RECOVERY_MODULE_ADDR K]) as [d1|e] eqn:E2.
  2: { left. split_thrown; unfold_action; use_equations; reflexivity. }
  destruct (encodeFunctionData sdk setup_abi "setup" [setupData]) as [d2|e] eqn:E3.
  2: { left. split_thrown; unfold_action; use_equations; reflexivity. }
  right. exists (recovery_batch K c d1 d2). split.
  - econstructor; eassumption.
  - unfold_action; use_equations.
    destruct (sendTransactions sdk c _); split_thrown; reflexivity.
Qed.

Lemma enableRecovery_encoding_failure_submits_nothing c g e :
  encoding_fails K sdk g e ->
  submissions (events (enableRecovery (Some c) g)) = [].
Proof. intros H; by_outcome H. Qed.

Lemma enableRecovery_encodings c g :
  encodings (events (enableRecovery (Some c) g)) = [(g, 3, 172800)].
Proof. recovery_cases g; reflexivity. Qed.

Lemma enableRecovery_frames c g st :
  Forall (eq (in_flight st "Configuring 3-of-5 Guardian Protocol..."))
         (frames st (events (enableRecovery (Some c) g))).
Proof. recovery_cases g; repeat constructor. Qed.

Lemma enableRecovery_loading_writes c g :
  loading_writes (events (enableRecovery (Some c) g)) = [true; false].
Proof. recovery_cases g; reflexivity. Qed.

Lemma enableRecovery_starts c g :
  exists rest,
    events (enableRecovery (Some c) g)
    = SetLoading true :: SetError None
        :: SetStatus "Configuring 3-of-5 Guardian Protocol..." :: rest.
Proof. recovery_cases g; eexists; reflexivity. Qed.

Lemma enableRecovery_ends c g :
  exists before,
    events (enableRecovery (Some c) g) = (before ++ [SetLoading false])%list.
Proof.
  recovery_cases g;
    match goal with
    | |- exists b, ?l = _ => exists (removelast l); reflexivity
    end.
Qed.

End Actions.

(* ===================================================================== *)
(** * The view *)
(* ===================================================================== *)

Section View.

Variable K : Constants.

Lemma view_without_key st :
  Js.truthy (PIMLICO_API_KEY K) = false -> ShadowVault K st = config_error_view.
Proof. intros H. unfold ShadowVault. now rewrite H. Qed.

Lemma view_without_client st :
  Js.truthy (PIMLICO_API_KEY K) = true ->
  smartClient st = None ->
  handlers (ShadowVault K st) = [OnCreateVault].
Proof.
  intros Hk Hc. unfold ShadowVault. rewrite Hk, Hc. cbn.
  destruct (loading st), (Js.truthy (error st)); reflexivity.
Qed.

Lemma view_with_client st c :
  Js.truthy (PIMLICO_API_KEY K) = true ->
  smartClient st = Some c ->
  handlers (ShadowVault K st) = [OnEnableRecovery (Some c) sample_guardians].
Proof.
  intros Hk Hc. unfold ShadowVault, GuardianButton. rewrite Hk, Hc. cbn.
  destruct (loading st), (Js.truthy (error st)); reflexivity.
Qed.

(** While the loading flag is set no button can be pressed. *)
Lemma view_loading_locked st :
  loading st = true -> clickable (ShadowVault K st) = [].
Proof.
  intros Hl. unfold ShadowVault, GuardianButton, config_error_view.
  destruct (Js.truthy (PIMLICO_API_KEY K)); cbn; [|reflexivity].
  rewrite Hl.
  destruct (smartClient st), (Js.truthy (error st)); reflexivity.
Qed.

(** A non-empty error message is part of the rendered text. *)
Lemma view_shows_error st m :
  Js.truthy (PIMLICO_API_KEY K) = true ->
  error st = Some m -> m <> "" ->
  In m (texts (ShadowVault K st)).
Proof.
  intros Hk He Hm. unfold ShadowVault, GuardianButton. rewrite Hk, He. cbn.
  destruct (String.eqb_spec m "") as [|_]; [contradiction|]. cbn.
  destruct (smartClient st), (loading st); cbn; auto 10.
Qed.

(** The buttons that can be pressed: none without a key or while loading,
    otherwise the one button of the current mode. *)
Lemma clickable_cases st h :
  In h (clickable (ShadowVault K st)) ->
  Js.truthy (PIMLICO_API_KEY K) = true
  /\ loading st = false
  /\ ((smartClient st = None /\ h = OnCreateVault)
      \/ (exists c, smartClient st = Some c
                    /\ h = OnEnableRecovery (Some c) sample_guardians)).
Proof.
  unfold ShadowVault, GuardianButton, config_error_view.
  destruct (Js.truthy (PIMLICO_API_KEY K)); cbn; [|intros []].
  destruct (smartClient st) as [c|], (loading st), (Js.truthy (error st)); cbn;
    intros Hin; try contradiction; destruct Hin as [<-|[]]; repeat split; eauto.
Qed.

End View.

(* ===================================================================== *)
(** * Recovery enablement: what is submitted *)
(* ===================================================================== *)

(** C1, as amended.  With a smart-account client [c]: when the three
    encodings of a guardian list return, [enableRecovery] hands
    [sendTransactions] one batch, once, of exactly two calls: the encoding
    of [enableModule(RECOVERY_MODULE_ADDR)] addressed to the account's own
    address, then the encoding of [setup(setupData)] addressed to the
    recovery module, where [setupData] is the ABI encoding of
    [(guardians, threshold, delay)]; and when the submission returns a
    hash the status ends as ["Recovery Protocol Live: "], the first ten
    characters of the hash, and ["..."].  When one of the encodings
    throws, nothing is submitted and the status ends as
    ["Recovery Setup Failed"]. *)
Theorem enableRecovery_submits_two_call_batch
        (K : Constants) (sdk : Sdk) (c : SmartClient) (guardians : list string) :
  (forall setupData moduleSetupData setupCall,
      encodeAbiParameters sdk setup_params guardians 3 172800 = Ok setupData ->
      encodeFunctionData sdk enableModule_abi "enableModule"
                         [RECOVERY_MODULE_ADDR K] = Ok moduleSetupData ->
      encodeFunctionData sdk setup_abi "setup" [setupData] = Ok setupCall ->
      let batch := [ {| to := address (account c); data := moduleSetupData |};
                     {| to := RECOVERY_MODULE_ADDR K; data := setupCall |} ] in
      submissions (events (enableRecovery K sdk (Some c) guardians)) = [(c, batch)]
      /\ forall txHash random st,
          sendTransactions sdk c batch = Ok txHash ->
          status (click K sdk random st (OnEnableRecovery (Some c) guardians))
          = "Recovery Protocol Live: " ++ substring 0 10 txHash ++ "...")
  /\ (forall e random st,
         encoding_fails K sdk guardians e ->
         submissions (events (enableRecovery K sdk (Some c) guardians)) = []
         /\ status (click K sdk random st (OnEnableRecovery (Some c) guardians))
            = "Recovery Setup Failed").
Proof.
  split.
  - intros setupData moduleSetupData setupCall H1 H2 H3 batch.
    assert (Henc : recovery_encoded K sdk c guardians batch)
      by exact (recovery_encoded_from K sdk c guardians _ _ _ H1 H2 H3).
    split.
    + destruct (enableRecovery_submissions K sdk c guardians)
        as [E|[b [Hb E]]]; rewrite E.
      * exfalso. revert E. unfold_action.
        rewrite H1; cbn. rewrite H2; cbn. rewrite H3; cbn.
        destruct (sendTransactions sdk c _) as [?|[| |?]]; discriminate.
      * destruct Hb as [s d1 d2 G1 G2 G3].
        change (48 * 3600) with 172800 in G1.
        rewrite H1 in G1. injection G1 as <-.
        rewrite H2 in G2. injection G2 as <-.
        rewrite H3 in G3. injection G3 as <-.
        reflexivity.
    + intros txHash random st H4.
      rewrite (enableRecovery_success_state K sdk random c guardians batch txHash st).
      * cbn [status]. now rewrite slice_first by lia.
      * now constructor.
  - intros e random st He. split.
    + now apply enableRecovery_encoding_failure_submits_nothing with (e := e).
    + now rewrite (enableRecovery_encoding_failure_state K sdk random c guardians e st He).
Qed.

Lemma enableRecovery_submits_two_call_batch_witness :
  let batch :=
    [ {| to := "0x5afe5afe5afe5afe5afe5afe5afe5afe5afe5afe";
         data := "enableModule(0x1111111111111111111111111111111111111111)" |};
      {| to := "0x1111111111111111111111111111111111111111";
         data := "setup(([0xdeadbeefdeadbeefdeadbeefdeadbeefdeadbeef,0x1234567890123456789012345678901234567890,0xfedcba9876543210fedcba9876543210fedcba98,0xabcdef1234567890abcdef1234567890abcdef12,0x0987654321fedcba0987654321fedcba09876543],3,172800))" |} ] in
  submissions (events (enableRecovery Double.constants Double.sdk
                                      (Some Double.client) Double.guardians))
  = [(Double.client, batch)]
  /\ status (click Double.constants Double.sdk Double.half initial
                   (OnEnableRecovery (Some Double.client) Double.guardians))
     = "Recovery Protocol Live: 0x9f3c1b7a..."
  /\ encoding_fails Double.constants Double.sdk sample_guardians
       (Double.invalid_address "0xabcdef1234567890abcdef1234567890abcdef")
  /\ status (click Double.constants Double.sdk Double.half initial
                   (OnEnableRecovery (Some Double.client) sample_guardians))
     = "Recovery Setup Failed".
Proof.
  pose proof (proj1 (enableRecovery_submits_two_call_batch
                       Double.constants Double.sdk Double.client Double.guardians)
                    _ _ _ eq_refl eq_refl eq_refl) as [Hs Hl].
  assert (Hf : encoding_fails Double.constants Double.sdk sample_guardians
                 (Double.invalid_address "0xabcdef1234567890abcdef1234567890abcdef"))
    by (constructor 1; reflexivity).
  split; [exact Hs|].
  split; [exact (Hl Double.tx_hash Double.half initial eq_refl)|].
  split; [exact Hf|].
  exact (proj2 (proj2 (enableRecovery_submits_two_call_batch
                         Double.constants Double.sdk Double.client sample_guardians)
                      _ Double.half initial Hf)).
Defined.

Example sample_guardians_rejected_by_encoder :
  encodeAbiParameters Double.sdk setup_params sample_guardians 3 (48 * 3600)
  = Throw (Double.invalid_address "0xabcdef1234567890abcdef1234567890abcdef").
Proof. reflexivity. Qed.

(** C1, as stated, fails: pressing the guardian button of the component
    runs [enableRecovery] on the guardian list written in the source, the
    encoder rejects its fourth address, and nothing is submitted. *)
Lemma enableRecovery_sample_guardians_not_submitted :
  submissions (events (enableRecovery Double.constants Double.sdk
                                      (Some Double.client) sample_guardians)) = []
  /\ status (click Double.constants Double.sdk Double.half
                   {| smartClient := Some Double.client;
                      status := "Vault Active: 0x5afe...5afe";
                      loading := false; error := None |}
                   (OnEnableRecovery (Some Double.client) sample_guardians))
     = "Recovery Setup Failed".
Proof. split; reflexivity. Qed.




(* ===================================================================== *)
(** * Vault creation: the status text *)
(* ===================================================================== *)

(** C2, as amended.  The status starts as ["Idle"]; [createVault] sets it
    to ["Initializing Biometric Vault..."], which is what every suspended
    state of the action shows.  When the three construction steps return
    a client, the status is then set once more, to ["Vault Active: "], the
    first six characters of the client's account address, ["..."] and its
    last four characters, and the client is stored.  When a step fails
    with a thrown value other than [null] and [undefined], the status is
    then set once more, to ["Initialization Failed"], and the error is set
    to a non-empty string. *)
Theorem createVault_status_transitions
        (K : Constants) (sdk : Sdk) (random : nat -> Q) :
  let run := events (createVault K sdk random) in
  let final := click K sdk random initial OnCreateVault in
  let initializing := "Initializing Biometric Vault..." in
  status initial = "Idle"
  /\ (exists n, map status (frames initial run) = repeat initializing (S n))
  /\ hd_error (status_trace run) = Some initializing
  /\ (forall client,
         vault_built K sdk random client ->
         let a := address (account client) in
         let active := "Vault Active: " ++ substring 0 6 a ++ "..."
                         ++ substring (String.length a - 4) 4 a in
         status_trace run = [initializing; active]
         /\ status final = active
         /\ smartClient final = Some client
         /\ error final = None)
  /\ (forall err : JsError,
         vault_fails K sdk random (ThrownValue err) ->
         status_trace run = [initializing; "Initialization Failed"]
         /\ status final = "Initialization Failed"
         /\ smartClient final = None
         /\ exists m, error final = Some m /\ m <> "").
Proof.
  intros run final initializing.
  split; [reflexivity|]. split; [|split; [|split]].
  - destruct (createVault_frames K sdk random initial) as [n Hn].
    exists n. subst run. rewrite Hn. rewrite map_repeat. reflexivity.
  - destruct (vault_fails_or_built K sdk random) as [[e He]|[c Hc]]; subst run.
    + now rewrite (createVault_failure_trace K sdk random e He).
    + now rewrite (createVault_success_trace K sdk random c Hc).
  - intros c Hc. subst run final. cbv zeta.
    rewrite (createVault_success_trace K sdk random c Hc).
    rewrite (createVault_success_state K sdk random c initial Hc).
    rewrite slice_first by lia.
    rewrite (slice_last _ 4) by lia.
    repeat split.
  - intros err He. subst run final.
    rewrite (createVault_failure_trace K sdk random _ He).
    rewrite (createVault_failure_state K sdk random _ initial He).
    repeat split.
    eexists. split; [reflexivity|].
    apply or_else_nonempty, unknown_error_nonempty.
Qed.

Lemma vault_built_by_double :
  vault_built Double.constants Double.sdk Double.half Double.client.
Proof. eapply vault_built_from; reflexivity. Defined.

Lemma vault_fails_on_zero_key :
  vault_fails Double.constants Double.sdk Double.zero Double.invalid_key.
Proof. apply owner_provisioning_fails. reflexivity. Defined.

Lemma createVault_status_transitions_witness :
  vault_built Double.constants Double.sdk Double.half Double.client
  /\ status_trace (events (createVault Double.constants Double.sdk Double.half))
     = ["Initializing Biometric Vault..."; "Vault Active: 0x5afe...5afe"]
  /\ vault_fails Double.constants Double.sdk Double.zero Double.invalid_key
  /\ status_trace (events (createVault Double.constants Double.sdk Double.zero))
     = ["Initializing Biometric Vault..."; "Initialization Failed"].
Proof.
  split; [exact vault_built_by_double|].
  split.
  { exact (proj1 (proj1 (proj2 (proj2 (proj2
             (createVault_status_transitions
                Double.constants Double.sdk Double.half))))
             Double.client vault_built_by_double)). }
  split; [exact vault_fails_on_zero_key|].
  exact (proj1 (proj2 (proj2 (proj2 (proj2
           (createVault_status_transitions
              Double.constants Double.sdk Double.zero))))
           Double.invalid_key vault_fails_on_zero_key)).
Defined.

(** C2, as stated, fails: the status is never ["Initializing..."]; while
    vault creation is in flight it reads
    ["Initializing Biometric Vault..."]. *)
Lemma createVault_status_is_not_the_short_text :
  ~ In "Initializing..."
       (status_trace (events (createVault Double.constants Double.sdk Double.half)))
  /\ map status (frames initial
                        (events (createVault Double.constants Double.sdk
                                             Double.half)))
     = [ "Initializing Biometric Vault..."; "Initializing Biometric Vault...";
         "Initializing Biometric Vault..." ].
Proof.
  split; [|reflexivity].
  intros [H|[H|[]]]; discriminate H.
Qed.

Example createVault_run_succeeds :
  click Double.constants Double.sdk Double.half initial OnCreateVault
  = {| smartClient := Some Double.client;
       status := "Vault Active: 0x5afe...5afe";
       loading := false; error := None |}.
Proof. reflexivity. Qed.

Example createVault_run_fails :
  click Double.constants Double.sdk Double.zero initial OnCreateVault
  = {| smartClient := None;
       status := "Initialization Failed";
       loading := false; error := Some "invalid private key" |}.
Proof. reflexivity. Qed.

(* ===================================================================== *)
(** * Failures *)
(* ===================================================================== *)

(** C4.  A failure is not always caught at the action boundary.  When a
    library call rejects with [undefined], the [catch] block of
    [createVault] itself throws on [err.message]: the promise returned by
    the handler rejects with a [TypeError], the status is left at
    ["Initializing Biometric Vault..."] and no error message is set.  In
    [enableRecovery] the same rejection leaves the status at
    ["Recovery Setup Failed"], again with no error message and a rejected
    promise.  The client cell is untouched in both. *)
Theorem thrown_undefined_escapes_the_catch_blocks :
  vault_fails Double.constants Faulty.throws_undefined Double.half ThrownUndefined
  /\ result (createVault Double.constants Faulty.throws_undefined Double.half)
     = Throw (type_error "undefined")
  /\ click Double.constants Faulty.throws_undefined Double.half initial OnCreateVault
     = {| smartClient := None; status := "Initializing Biometric Vault...";
          loading := false; error := None |}
  /\ submission_fails Double.constants Faulty.rejects_undefined Double.client
                      Double.guardians ThrownUndefined
  /\ result (enableRecovery Double.constants Faulty.rejects_undefined
                            (Some Double.client) Double.guardians)
     = Throw (type_error "undefined")
  /\ click Double.constants Faulty.rejects_undefined Double.half
           {| smartClient := Some Double.client;
              status := "Vault Active: 0x5afe...5afe";
              loading := false; error := None |}
           (OnEnableRecovery (Some Double.client) Double.guardians)
     = {| smartClient := Some Double.client; status := "Recovery Setup Failed";
          loading := false; error := None |}.
Proof.
  split; [apply owner_provisioning_fails; reflexivity|].
  split; [reflexivity|]. split; [reflexivity|].
  split.
  { econstructor; [eapply recovery_encoded_from; reflexivity|reflexivity]. }
  split; reflexivity.
Qed.

(** X15.  A failure with a thrown value other than [null] and
    [undefined] is caught at the action boundary: the handler returns
    normally.  If it is vault creation that fails (at owner provisioning,
    account construction or client construction) while no vault exists,
    the component still has no client, its status is
    ["Initialization Failed"] and a non-empty error message is set and
    rendered.  If it is recovery enablement (at submission, or at an
    encoding before it), the status is ["Recovery Setup Failed"], a
    non-empty error message is set and rendered, and the client is the one
    it was. *)
Theorem failures_with_a_value_are_caught
        (K : Constants) (sdk : Sdk) (random : nat -> Q) (st : UiState) :
  Js.truthy (PIMLICO_API_KEY K) = true ->
  (forall err : JsError,
      vault_fails K sdk random (ThrownValue err) ->
      smartClient st = None ->
      let st' := click K sdk random st OnCreateVault in
      result (createVault K sdk random) = Ok tt
      /\ smartClient st' = None
      /\ status st' = "Initialization Failed"
      /\ handlers (ShadowVault K st') = [OnCreateVault]
      /\ exists m, error st' = Some m /\ m <> ""
                   /\ In m (texts (ShadowVault K st')))
  /\ (forall c g (err : JsError),
         submission_fails K sdk c g (ThrownValue err)
         \/ encoding_fails K sdk g (ThrownValue err) ->
         smartClient st = Some c ->
         let st' := click K sdk random st (OnEnableRecovery (Some c) g) in
         result (enableRecovery K sdk (Some c) g) = Ok tt
         /\ smartClient st' = Some c
         /\ status st' = "Recovery Setup Failed"
         /\ exists m, error st' = Some m /\ m <> ""
                      /\ In m (texts (ShadowVault K st'))).
Proof.
  intros Hkey. split.
  - intros err He Hnone st'. subst st'.
    rewrite (createVault_failure_result K sdk random _ He).
    rewrite (createVault_failure_state K sdk random _ st He).
    cbn [smartClient status error is_nullish shown_error after_catch].
    repeat split; try assumption.
    + now apply view_without_client.
    + eexists. split; [reflexivity|].
      assert (Hm := or_else_nonempty (message err) _ unknown_error_nonempty).
      split; [exact Hm|].
      now apply view_shows_error.
  - intros c g err Hfail Hsome st'. subst st'.
    assert (Hst : click K sdk random st (OnEnableRecovery (Some c) g)
                  = {| smartClient := smartClient st;
                       status := "Recovery Setup Failed";
                       loading := false;
                       error := shown_error (ThrownValue err) |}
                  /\ result (enableRecovery K sdk (Some c) g) = Ok tt).
    { destruct Hfail as [H|H].
      - split; [now apply enableRecovery_submission_failure_state|].
        now rewrite (enableRecovery_submission_failure_result K sdk c g _ H).
      - split; [now apply enableRecovery_encoding_failure_state|].
        now rewrite (enableRecovery_encoding_failure_result K sdk c g _ H). }
    destruct Hst as [-> ->].
    cbn [smartClient status error shown_error]. repeat split; try assumption.
    eexists. split; [reflexivity|].
    assert (Hm := or_else_nonempty (message err) _ unknown_error_nonempty).
    split; [exact Hm|].
    now apply view_shows_error.
Qed.

Lemma failures_with_a_value_are_caught_witness :
  (* owner provisioning fails on the all-zero key *)
  vault_fails Double.constants Double.sdk Double.zero Double.invalid_key
  /\ click Double.constants Double.sdk Double.zero initial OnCreateVault
     = {| smartClient := None; status := "Initialization Failed";
          loading := false; error := Some "invalid private key" |}
  (* the bundler rejects the batch *)
  /\ submission_fails Double.constants Double.offline Double.client
                      Double.guardians Double.bundler_down
  /\ smartClient
       (click Double.constants Double.offline Double.half
              {| smartClient := Some Double.client;
                 status := "Vault Active: 0x5afe...5afe";
                 loading := false; error := None |}
              (OnEnableRecovery (Some Double.client) Double.guardians))
     = Some Double.client.
Proof.
  assert (Hs : submission_fails Double.constants Double.offline Double.client
                                Double.guardians Double.bundler_down).
  { econstructor.
    - eapply recovery_encoded_from; reflexivity.
    - reflexivity. }
  split; [exact vault_fails_on_zero_key|]. split; [reflexivity|].
  split; [exact Hs|].
  exact (proj1 (proj2 (proj2
           (failures_with_a_value_are_caught
              Double.constants Double.offline Double.half
              {| smartClient := Some Double.client;
                 status := "Vault Active: 0x5afe...5afe";
                 loading := false; error := None |} eq_refl)
           Double.client Double.guardians Double.bundler_down
           (or_introl Hs) eq_refl))).
Defined.

(* ===================================================================== *)
(** * Guards *)
(* ===================================================================== *)

(** C5.  While the client cell is null the rendered tree has no button
    bound to [enableRecovery] (the only button there is, if any, creates
    the vault), and [enableRecovery] called with a null client returns at
    once: no event, hence no submission and no state change. *)
Theorem recovery_needs_a_client (K : Constants) (st : UiState) :
  smartClient st = None ->
  (forall closure g, ~ In (OnEnableRecovery closure g) (handlers (ShadowVault K st)))
  /\ (forall sdk random g,
         events (enableRecovery K sdk None g) = []
         /\ submissions (events (enableRecovery K sdk None g)) = []
         /\ result (enableRecovery K sdk None g) = Ok tt
         /\ click K sdk random st (OnEnableRecovery None g) = st).
Proof.
  intros Hnone. split.
  - intros closure g Hin.
    destruct (Js.truthy (PIMLICO_API_KEY K)) eqn:Hk.
    + rewrite (view_without_client K st Hk Hnone) in Hin.
      destruct Hin as [H|[]]. discriminate H.
    + rewrite (view_without_key K st Hk) in Hin. cbn in Hin. exact Hin.
  - intros sdk random g. repeat split.
Qed.

Lemma recovery_needs_a_client_witness :
  smartClient initial = None
  /\ handlers (ShadowVault Double.constants initial) = [OnCreateVault]
  /\ click Double.constants Double.sdk Double.half initial
           (OnEnableRecovery None sample_guardians) = initial.
Proof.
  split; [reflexivity|]. split; [reflexivity|].
  exact (proj2 (proj2 (proj2
           (proj2 (recovery_needs_a_client Double.constants initial eq_refl)
                  Double.sdk Double.half sample_guardians)))).
Defined.

(** C6.  Without an API key (missing or empty) the component renders the
    configuration-error view whatever its state: an icon, a heading and
    one paragraph, with no button, and nothing of the status or error
    cells in it. *)
Theorem missing_api_key_renders_only_the_error_view (K : Constants) :
  Js.truthy (PIMLICO_API_KEY K) = false ->
  forall st,
    ShadowVault K st = config_error_view
    /\ handlers (ShadowVault K st) = []
    /\ clickable (ShadowVault K st) = []
    /\ texts (ShadowVault K st)
       = [ "Configuration Error";
           "Pimlico API key is missing. Please set the `API_KEY` environment variable to continue." ]
    /\ forall st', ShadowVault K st' = ShadowVault K st.
Proof.
  intros Hk st. rewrite (view_without_key K st Hk).
  repeat split. intros st'. apply view_without_key, Hk.
Qed.

Lemma missing_api_key_renders_only_the_error_view_witness :
  Js.truthy (PIMLICO_API_KEY Double.unconfigured) = false
  /\ handlers (ShadowVault Double.unconfigured
                 {| smartClient := Some Double.client; status := "Idle";
                    loading := false; error := Some "stale" |}) = [].
Proof.
  split; [reflexivity|].
  exact (proj1 (proj2 (missing_api_key_renders_only_the_error_view
                         Double.unconfigured eq_refl
                         {| smartClient := Some Double.client; status := "Idle";
                            loading := false; error := Some "stale" |}))).
Defined.

(* ===================================================================== *)
(** * The loading flag and the error cell during an action *)
(* ===================================================================== *)

Section InFlight.

Variable K : Constants.
Variable sdk : Sdk.
Variable random : nat -> Q.

Lemma action_brackets h :
  starts_action h = true ->
  exists work,
    events (run_handler K sdk random h)
    = (SetLoading true :: SetError None :: work ++ [SetLoading false])%list.
Proof.
  destruct h as [|[c|] g]; cbn [starts_action]; try discriminate; intros _.
  - destruct (createVault_starts K sdk random) as [rest Hs].
    destruct (createVault_ends K sdk random) as [before He].
    cbn [run_handler]. rewrite Hs.
    assert (Hr : exists work, rest = (work ++ [SetLoading false])%list).
    { rewrite Hs in He.
      destruct before as [|b1 [|b2 [|b3 before]]]; try discriminate He.
      injection He as _ _ _ He.
      destruct rest as [|r rest] using rev_ind; [destruct before; discriminate|].
      apply app_inj_tail in He as [_ ->]. now exists rest. }
    destruct Hr as [work ->].
    exists (SetStatus "Initializing Biometric Vault..." :: work). reflexivity.
  - destruct (enableRecovery_starts K sdk c g) as [rest Hs].
    destruct (enableRecovery_ends K sdk c g) as [before He].
    cbn [run_handler]. rewrite Hs.
    assert (Hr : exists work, rest = (work ++ [SetLoading false])%list).
    { rewrite Hs in He.
      destruct before as [|b1 [|b2 [|b3 before]]]; try discriminate He.
      injection He as _ _ _ He.
      destruct rest as [|r rest] using rev_ind; [destruct before; discriminate|].
      apply app_inj_tail in He as [_ ->]. now exists rest. }
    destruct Hr as [work ->].
    exists (SetStatus "Configuring 3-of-5 Guardian Protocol..." :: work).
    reflexivity.
Qed.

Lemma action_loading_writes h :
  starts_action h = true ->
  loading_writes (events (run_handler K sdk random h)) = [true; false].
Proof.
  destruct h as [|[c|] g]; cbn [starts_action]; try discriminate; intros _.
  - apply createVault_loading_writes.
  - apply enableRecovery_loading_writes.
Qed.

Lemma action_frames h st :
  starts_action h = true ->
  exists t,
    Forall (eq (in_flight st t)) (frames st (events (run_handler K sdk random h))).
Proof.
  destruct h as [|[c|] g]; cbn [starts_action]; try discriminate; intros _.
  - exists "Initializing Biometric Vault...".
    destruct (createVault_frames K sdk random st) as [n Hn].
    cbn [run_handler]. rewrite Hn. apply Forall_forall.
    intros x Hx. now apply repeat_spec in Hx.
  - exists "Configuring 3-of-5 Guardian Protocol...".
    apply enableRecovery_frames.
Qed.

Lemma action_final_loading h st :
  starts_action h = true ->
  loading (click K sdk random st h) = false.
Proof.
  intros Hs. destruct (action_brackets h Hs) as [work Hw].
  unfold click, apply_events. rewrite Hw.
  change (SetLoading true :: SetError None :: work ++ [SetLoading false])%list
    with ((SetLoading true :: SetError None :: work) ++ [SetLoading false])%list.
  rewrite fold_left_app. reflexivity.
Qed.

End InFlight.

(** C7.  Every action (vault creation; recovery enablement with a client)
    writes the loading flag exactly twice, [true] as its first effect and
    [false] as its last, on the success path and on every failure path
    alike; in every state in which the action is suspended the flag is
    [true], and in the state it leaves behind the flag is [false].
    Recovery enablement called without a client starts no action and does
    not touch the flag. *)
Theorem loading_flag_brackets_every_action
        (K : Constants) (sdk : Sdk) (random : nat -> Q) (st : UiState)
        (h : Handler) :
  let run := events (run_handler K sdk random h) in
  if starts_action h then
    loading_writes run = [true; false]
    /\ (exists work, run = SetLoading true :: work ++ [SetLoading false])%list
    /\ Forall (fun f => loading f = true) (frames st run)
    /\ loading (click K sdk random st h) = false
  else
    run = [] /\ click K sdk random st h = st.
Proof.
  intros run. destruct (starts_action h) eqn:Hs.
  - split; [now apply action_loading_writes|].
    split.
    { destruct (action_brackets K sdk random h Hs) as [work Hw].
      exists (SetError None :: work). exact Hw. }
    split; [|now apply action_final_loading].
    destruct (action_frames K sdk random h st Hs) as [t Ht].
    eapply Forall_impl; [|exact Ht].
    intros f <-. reflexivity.
  - destruct h as [|[c|] g]; try discriminate Hs. split; reflexivity.
Qed.

(** C10.  Every action sets the error cell to null at its start, right
    after raising the loading flag and before any library call, timer or
    suspension; so in every state in which the action is suspended the
    error cell is null, whatever error the component held before. *)
Theorem actions_clear_the_previous_error
        (K : Constants) (sdk : Sdk) (random : nat -> Q) (h : Handler) :
  starts_action h = true ->
  (exists work,
      events (run_handler K sdk random h)
      = SetLoading true :: SetError None :: work)
  /\ forall st,
      Forall (fun f => error f = None)
             (frames st (events (run_handler K sdk random h)))
      /\ forall stale,
          frames {| smartClient := smartClient st; status := status st;
                    loading := loading st; error := Some stale |}
                 (events (run_handler K sdk random h))
          = frames {| smartClient := smartClient st; status := status st;
                      loading := loading st; error := None |}
                   (events (run_handler K sdk random h)).
Proof.
  intros Hs. split.
  - destruct (action_brackets K sdk random h Hs) as [work Hw].
    eexists. exact Hw.
  - intros st. split.
    + destruct (action_frames K sdk random h st Hs) as [t Ht].
      eapply Forall_impl; [|exact Ht].
      intros f <-. reflexivity.
    + intros stale.
      destruct (action_brackets K sdk random h Hs) as [work ->].
      reflexivity.
Qed.

Lemma actions_clear_the_previous_error_witness :
  starts_action OnCreateVault = true
  /\ Forall (fun f => error f = None)
            (frames {| smartClient := None; status := "Initialization Failed";
                       loading := false; error := Some "invalid private key" |}
                    (events (run_handler Double.constants Double.sdk Double.half
                                         OnCreateVault))).
Proof.
  split; [reflexivity|].
  exact (proj1 (proj2 (actions_clear_the_previous_error
                         Double.constants Double.sdk Double.half OnCreateVault
                         eq_refl)
                      {| smartClient := None; status := "Initialization Failed";
                         loading := false;
                         error := Some "invalid private key" |})).
Defined.

(* ===================================================================== *)
(** * The sample guardian list *)
(* ===================================================================== *)

(** C9, as amended.  The guardian list written in [GuardianButton] has
    exactly five entries; the first three are well-formed 42-character
    account addresses, the fourth and the fifth are malformed, each 40
    characters long. *)
Theorem sample_guardians_shape :
  List.length sample_guardians = 5%nat
  /\ map String.length sample_guardians = [42; 42; 42; 40; 40]%nat
  /\ map Address.well_formed sample_guardians = [true; true; true; false; false].
Proof. repeat split. Qed.

(** C9, as stated, fails: no entry of the list is 41 characters long, and
    three entries, not four, are well-formed. *)
Lemma sample_guardians_no_41_character_entry :
  ~ (exists a, In a sample_guardians /\ String.length a = 41%nat)
  /\ List.length (filter Address.well_formed sample_guardians) <> 4%nat.
Proof.
  split.
  - intros [a [Hin Hlen]]. cbn in Hin.
    repeat (destruct Hin as [<-|Hin]; [discriminate Hlen|]). exact Hin.
  - discriminate.
Qed.

(* ===================================================================== *)
(** * Owner provisioning *)
(* ===================================================================== *)

Lemma nibble_range (q : Q) :
  (0 <= q)%Q -> (q < 1)%Q -> 0 <= Js.Math_floor (q * 16) < 16.
Proof.
  intros H0 H1. unfold Js.Math_floor. split.
  - change 0 with (Qfloor 0). apply Qfloor_resp_le.
    apply Qmult_le_0_compat; [exact H0|discriminate].
  - assert (H : (inject_Z (Qfloor (q * 16)) < inject_Z 16)%Q).
    { eapply Qle_lt_trans; [apply Qfloor_le|].
      change (inject_Z 16) with (1 * 16)%Q.
      apply Qmult_lt_compat_r; [reflexivity|exact H1]. }
    now rewrite <- Zlt_Qlt in H.
Qed.

Lemma nibbles_range (random : nat -> Q) :
  in_unit_interval random -> Forall (fun n => 0 <= n < 16) (nibbles random).
Proof.
  intros H. unfold nibbles. apply Forall_forall. intros n Hn.
  apply in_map_iff in Hn as [i [<- _]].
  destruct (H i). now apply nibble_range.
Qed.

Lemma nibbles_length (random : nat -> Q) : List.length (nibbles random) = 64%nat.
Proof. unfold nibbles. now rewrite length_map, length_seq. Qed.

(** A nibble prints as one hexadecimal digit that reads back as itself. *)
Lemma toString16_nibble (n : Z) :
  0 <= n < 16 ->
  exists c, Js.toString16 n = String c ""
            /\ Double.digit_value c = Some n
            /\ Address.is_hex_digit c = true.
Proof.
  intros H.
  assert (Hk : (Z.to_nat n < 16)%nat) by lia.
  rewrite <- (Z2Nat.id n) by lia.
  set (k := Z.to_nat n) in *. clearbody k. clear H.
  do 16 (destruct k as [|k]; [eexists; repeat split|]). lia.
Qed.

Lemma join_cons (x : string) (xs : list string) :
  Js.join (x :: xs) = x ++ Js.join xs.
Proof.
  unfold Js.join. destruct xs as [|y ys]; cbn [String.concat].
  - clear. induction x as [|c x IH]; [reflexivity|]. cbn. now rewrite <- IH.
  - reflexivity.
Qed.

Lemma hex_value_digits (ns : list Z) (acc : Z) :
  Forall (fun n => 0 <= n < 16) ns ->
  Double.hex_value acc (Js.join (map Js.toString16 ns))
  = Some (fold_left (fun a d => 16 * a + d) ns acc).
Proof.
  intros H. revert acc. induction H as [|n ns Hn _ IH]; intros acc; [reflexivity|].
  cbn [map]. rewrite join_cons.
  destruct (toString16_nibble n Hn) as [c [-> [Hd _]]].
  cbn [String.append Double.hex_value]. rewrite Hd. apply IH.
Qed.

Lemma digits_length (ns : list Z) :
  Forall (fun n => 0 <= n < 16) ns ->
  String.length (Js.join (map Js.toString16 ns)) = List.length ns.
Proof.
  induction 1 as [|n ns Hn _ IH]; [reflexivity|].
  cbn [map]. rewrite join_cons.
  destruct (toString16_nibble n Hn) as [c [-> _]].
  cbn. now rewrite IH.
Qed.

Lemma digits_all_hex (ns : list Z) :
  Forall (fun n => 0 <= n < 16) ns ->
  Address.all_hex (Js.join (map Js.toString16 ns)) = true.
Proof.
  induction 1 as [|n ns Hn _ IH]; [reflexivity|].
  cbn [map]. rewrite join_cons.
  destruct (toString16_nibble n Hn) as [c [-> [_ Hc]]].
  cbn [String.append Address.all_hex]. now rewrite Hc, IH.
Qed.

Lemma substring_all (s : string) : substring 0 (String.length s) s = s.
Proof. induction s as [|c s IH]; [reflexivity|]. cbn. now rewrite IH. Qed.

Lemma key_prefix (body : string) : substring 0 2 ("0x" ++ body) = "0x".
Proof. destruct body; reflexivity. Qed.

Lemma randomPrivateKey_digits (random : nat -> Q) :
  randomPrivateKey random = "0x" ++ Js.join (map Js.toString16 (nibbles random)).
Proof. unfold randomPrivateKey, nibbles. now rewrite map_map. Qed.

(** The generated key always has the shape of a private key: ["0x"] and
    sixty-four hexadecimal digits. *)
Lemma randomPrivateKey_shape (random : nat -> Q) :
  in_unit_interval random ->
  String.length (randomPrivateKey random) = 66%nat
  /\ substring 0 2 (randomPrivateKey random) = "0x"
  /\ Address.all_hex (substring 2 64 (randomPrivateKey random)) = true
  /\ Double.scalar_of_key (randomPrivateKey random) = Some (scalar (nibbles random)).
Proof.
  intros H. apply nibbles_range in H.
  pose proof (digits_length _ H) as Hlen. rewrite nibbles_length in Hlen.
  rewrite randomPrivateKey_digits.
  set (body := Js.join (map Js.toString16 (nibbles random))) in *.
  assert (Hsub : substring 2 64 ("0x" ++ body) = body).
  { change (substring 2 64 ("0x" ++ body)) with (substring 0 64 body).
    rewrite <- Hlen. apply substring_all. }
  split.
  { change (String.length ("0x" ++ body)) with (S (S (String.length body))).
    now rewrite Hlen. }
  split; [apply key_prefix|].
  split; [rewrite Hsub; now apply digits_all_hex|].
  unfold Double.scalar_of_key. rewrite Hsub.
  rewrite key_prefix.
  change (String.length ("0x" ++ body)) with (S (S (String.length body))).
  rewrite Hlen.
  change (("0x" =? "0x")%string && (66 =? 66)%nat)%bool with true. cbv iota.
  unfold body, scalar. exact (hex_value_digits (nibbles random) 0 H).
Qed.

Section Owner.

Variable sdk : Sdk.
Variable random : nat -> Q.

(** The stub logs, waits for its 1500 ms timer, and then stands or falls
  with [privateKeyToAccount] on the generated key. *)
Lemma getBiometricOwner_result :
result (getBiometricOwner sdk random)
= privateKeyToAccount sdk (randomPrivateKey random).
Proof.
unfold_action.
destruct (privateKeyToAccount sdk (randomPrivateKey random)); reflexivity.
Qed.

Lemma getBiometricOwner_delay :
exists rest,
  events (getBiometricOwner sdk random)
  = ConsoleLog ["Simulating biometric prompt for owner key..."]
      :: SetTimeout 1500 :: Suspend
      :: CallPrivateKeyToAccount (randomPrivateKey random) :: rest.
Proof.
unfold_action.
destruct (privateKeyToAccount sdk (randomPrivateKey random));
  eexists; reflexivity.
Qed.

End Owner.

(** With the scalar check of the real library, the stub returns an
    identity exactly when the sixty-four nibbles spell a scalar in
    [1, n-1]. *)
Lemma getBiometricOwner_succeeds_iff (random : nat -> Q) :
  in_unit_interval random ->
  (exists owner, result (getBiometricOwner Double.sdk random) = Ok owner)
  <-> 0 < scalar (nibbles random) < Double.secp256k1_n.
Proof.
  intros H. rewrite getBiometricOwner_result.
  destruct (randomPrivateKey_shape random H) as [_ [_ [_ Hk]]].
  cbn [privateKeyToAccount Double.sdk]. unfold Double.privateKeyToAccount.
  rewrite Hk.
  destruct (Z.ltb_spec 0 (scalar (nibbles random)));
    destruct (Z.ltb_spec (scalar (nibbles random)) Double.secp256k1_n);
    cbn [andb]; split; try lia; try (intros [o Ho]; discriminate Ho);
    intros _; eexists; reflexivity.
Qed.

(** C8.  When all sixty-four draws of [Math.random()] are 0, the stub
    builds the all-zero key; [privateKeyToAccount] rejects the scalar 0,
    and the promise returned by [getBiometricOwner] rejects: owner
    provisioning does not always succeed. *)
Theorem getBiometricOwner_rejects_on_zero_key :
  in_unit_interval Double.zero
  /\ randomPrivateKey Double.zero
     = "0x0000000000000000000000000000000000000000000000000000000000000000"
  /\ result (getBiometricOwner Double.sdk Double.zero) = Throw Double.invalid_key
  /\ status (click Double.constants Double.sdk Double.zero initial OnCreateVault)
     = "Initialization Failed".
Proof.
  split; [intros i; split; [apply Qle_refl|reflexivity]|].
  repeat split.
Qed.

(* ===================================================================== *)
(** * The component as a transition system *)
(* ===================================================================== *)

Section Reachability.

Variable K : Constants.
Variable sdk : Sdk.
Variable random : nat -> Q.

(** While an action is suspended every button is disabled, so no second
    handler starts before the first has finished: taking a whole handler
    run as one step loses no behaviour of the buttons. *)
Lemma in_flight_locks_the_buttons h st :
  starts_action h = true ->
  Forall (fun f => clickable (ShadowVault K f) = [])
         (frames st (events (run_handler K sdk random h))).
Proof.
  intros Hs. destruct (action_frames K sdk random h st Hs) as [t Ht].
  eapply Forall_impl; [|exact Ht].
  intros f <-. now apply view_loading_locked.
Qed.

Lemma step_runs_an_action st st' :
  step K sdk random st st' ->
  exists h, starts_action h = true /\ st' = click K sdk random st h.
Proof.
  intros [s h Hin]. exists h. split; [|reflexivity].
  apply clickable_cases in Hin as [_ [_ [[_ ->]|[c [_ ->]]]]]; reflexivity.
Qed.

(** Between actions the loading flag is down. *)
Lemma reachable_at_rest st :
  reachable K sdk random st -> loading st = false.
Proof.
  induction 1 as [|st st' _ _ Hstep]; [reflexivity|].
  apply step_runs_an_action in Hstep as [h [Hs ->]].
  now apply action_final_loading.
Qed.

(** Recovery enablement never touches the client cell. *)
Lemma enableRecovery_keeps_client closure g st :
  smartClient (click K sdk random st (OnEnableRecovery closure g)) = smartClient st.
Proof.
  destruct closure as [c|]; [|reflexivity].
  unfold_action. case_results; reflexivity.
Qed.

(** Whenever [enableRecovery] runs from a button, it runs with the client
    the component holds. *)
Lemma reachable_recovery_has_client st closure g :
  reachable K sdk random st ->
  In (OnEnableRecovery closure g) (clickable (ShadowVault K st)) ->
  exists c, closure = Some c /\ smartClient st = Some c /\ g = sample_guardians.
Proof.
  intros _ Hin.
  apply clickable_cases in Hin as [_ [_ [[_ H]|[c [Hc H]]]]]; [discriminate H|].
  injection H as -> ->. now exists c.
Qed.

(** Once a vault exists it stays: the create button is gone and the only
    action left keeps the client. *)
Lemma step_keeps_client st st' c :
  step K sdk random st st' -> smartClient st = Some c -> smartClient st' = Some c.
Proof.
  intros [s h Hin] Hc.
  apply clickable_cases in Hin as [_ [_ [[Hn _]|[c' [_ ->]]]]].
  - rewrite Hn in Hc. discriminate Hc.
  - now rewrite enableRecovery_keeps_client.
Qed.

End Reachability.

(* ===================================================================== *)
(** * Owner provisioning: the generated key and the console *)
(* ===================================================================== *)

(** X1.  Whatever [Math.random()] returns in [0, 1), the key handed to
    [privateKeyToAccount] is ["0x"] followed by exactly sixty-four
    hexadecimal digits, sixty-six characters in all: each of the
    sixty-four draws contributes exactly one digit. *)
Theorem randomPrivateKey_is_32_byte_hex (random : nat -> Q) :
  in_unit_interval random ->
  String.length (randomPrivateKey random) = 66%nat
  /\ substring 0 2 (randomPrivateKey random) = "0x"
  /\ Address.all_hex (substring 2 64 (randomPrivateKey random)) = true
  /\ List.length (nibbles random) = 64%nat
  /\ Forall (fun n => 0 <= n < 16) (nibbles random).
Proof.
  intros H.
  destruct (randomPrivateKey_shape random H) as [Hl [Hp [Hh _]]].
  split; [exact Hl|]. split; [exact Hp|]. split; [exact Hh|].
  split; [apply nibbles_length|now apply nibbles_range].
Qed.

Lemma half_in_unit_interval : in_unit_interval Double.half.
Proof. intros i. split; [discriminate|reflexivity]. Defined.

Lemma randomPrivateKey_is_32_byte_hex_witness :
  in_unit_interval Double.half
  /\ String.length (randomPrivateKey Double.half) = 66%nat.
Proof.
  split; [exact half_in_unit_interval|].
  exact (proj1 (randomPrivateKey_is_32_byte_hex Double.half half_in_unit_interval)).
Defined.

Lemma map_nth_seq (ns : list Z) (f : Z -> Z) :
  map (fun i => f (nth i ns 0)) (seq 0 (List.length ns)) = map f ns.
Proof.
  induction ns as [|n ns IH]; [reflexivity|].
  cbn [List.length seq map nth]. f_equal.
  rewrite <- seq_shift, map_map. exact IH.
Qed.

Lemma floor_of_sixteenths (n : Z) : Js.Math_floor (inject_Z n / 16 * 16) = n.
Proof.
  unfold Js.Math_floor.
  rewrite <- (Qfloor_Z n) at 2. apply Qfloor_comp. field.
Qed.

(** X2.  Every 32-byte value can come out of the generator: for any
    sequence of sixty-four nibbles there are draws of [Math.random()] in
    [0, 1) for which the generated key spells exactly that sequence.  The
    stub excludes no key, not even the all-zero one. *)
Theorem every_key_can_be_generated (ns : list Z) :
  List.length ns = 64%nat ->
  Forall (fun n => 0 <= n < 16) ns ->
  in_unit_interval (draws_for ns)
  /\ nibbles (draws_for ns) = ns
  /\ randomPrivateKey (draws_for ns) = "0x" ++ Js.join (map Js.toString16 ns).
Proof.
  intros Hlen Hns.
  assert (Hnib : nibbles (draws_for ns) = ns).
  { unfold nibbles, draws_for. rewrite <- Hlen.
    rewrite (map_nth_seq ns (fun z => Js.Math_floor (inject_Z z / 16 * 16))).
    rewrite <- (map_id ns) at 2. apply map_ext. intros z.
    apply floor_of_sixteenths. }
  split; [|split; [exact Hnib|]].
  - intros i. unfold draws_for.
    assert (Hi : 0 <= nth i ns 0 < 16).
    { destruct (Nat.lt_ge_cases i (List.length ns)) as [Hlt|Hge].
      - rewrite Forall_forall in Hns. apply Hns. now apply nth_In.
      - rewrite nth_overflow by exact Hge. lia. }
    split.
    + apply Qle_shift_div_l; [reflexivity|].
      rewrite Qmult_0_l. change 0%Q with (inject_Z 0).
      rewrite <- Zle_Qle. lia.
    + apply Qlt_shift_div_r; [reflexivity|].
      rewrite Qmult_1_l. change 16%Q with (inject_Z 16).
      rewrite <- Zlt_Qlt. lia.
  - rewrite randomPrivateKey_digits, Hnib. reflexivity.
Qed.

Lemma every_key_can_be_generated_witness :
  List.length (repeat 15 64) = 64%nat
  /\ Forall (fun n => 0 <= n < 16) (repeat 15 64)
  /\ randomPrivateKey (draws_for (repeat 15 64))
     = "0xffffffffffffffffffffffffffffffffffffffffffffffffffffffffffffffff".
Proof.
  assert (Hr : Forall (fun n => 0 <= n < 16) (repeat 15 64)).
  { apply Forall_forall. intros x Hx. apply repeat_spec in Hx. subst x.
    split; [discriminate|reflexivity]. }
  split; [reflexivity|]. split; [exact Hr|].
  exact (proj2 (proj2 (every_key_can_be_generated (repeat 15 64) eq_refl Hr))).
Defined.



(* ===================================================================== *)
(** * The handlers: which calls are made, and when *)
(* ===================================================================== *)

Section Calls.

Variable K : Constants.
Variable sdk : Sdk.
Variable random : nat -> Q.

(** X4.  [createVault] makes its three library calls in order, each on the
    result of the one before (the account is built for the owner that was
    provisioned, the client around the account that was built), and stops
    at the first one that fails: no later call is made.  The client cell
    is written only when all three have returned, once, with the client
    the last call returned. *)
Theorem createVault_stops_at_first_failure :
  let key := randomPrivateKey random in
  let run := events (createVault K sdk random) in
  match privateKeyToAccount sdk key with
  | Throw _ =>
      library_calls run = [CallPrivateKeyToAccount key]
      /\ client_writes run = []
  | Ok owner =>
      match toSafeSmartAccount sdk (safeParams K owner) with
      | Throw _ =>
          library_calls run
          = [CallPrivateKeyToAccount key;
             CallToSafeSmartAccount (safeParams K owner)]
          /\ client_writes run = []
      | Ok safeAccount =>
          library_calls run
          = [CallPrivateKeyToAccount key;
             CallToSafeSmartAccount (safeParams K owner);
             CallCreateSmartAccountClient (clientParams K safeAccount)]
          /\ client_writes run
             = match createSmartAccountClient sdk (clientParams K safeAccount) with
               | Ok client => [client]
               | Throw _ => []
               end
      end
  end.
Proof.
  cbv zeta. unfold_action. case_results; split; reflexivity.
Qed.

(** Every run of [enableRecovery] with a client ends in one of three ways. *)
Lemma recovery_outcomes c g :
  (exists e, encoding_fails K sdk g e)
  \/ (exists e, submission_fails K sdk c g e)
  \/ (exists batch txHash, submission_succeeds K sdk c g batch txHash).
Proof.
  destruct (encodeAbiParameters sdk setup_params g 3 (48 * 3600))
    as [setupData|e] eqn:E1.
  2: { left. exists e. now constructor 1. }
  destruct (encodeFunctionData sdk enableModule_abi "enableModule"
                               [RECOVERY_MODULE_ADDR K]) as [d1|e] eqn:E2.
  2: { left. exists e. econstructor 2; eassumption. }
  destruct (encodeFunctionData sdk setup_abi "setup" [setupData]) as [d2|e] eqn:E3.
  2: { left. exists e. econstructor 3; eassumption. }
  assert (Henc : recovery_encoded K sdk c g (recovery_batch K c d1 d2))
    by (econstructor; eassumption).
  right.
  destruct (sendTransactions sdk c (recovery_batch K c d1 d2)) as [h|e] eqn:E4.
  - right. exists (recovery_batch K c d1 d2), h. now constructor.
  - left. exists e. econstructor; eassumption.
Qed.

Lemma enableRecovery_client_writes closure g :
  client_writes (events (enableRecovery K sdk closure g)) = [].
Proof.
  destruct closure as [c|]; [|reflexivity]. unfold_action.
  case_results; reflexivity.
Qed.

(** X5.  Whatever the libraries answer and whatever list it is given,
    [enableRecovery] calls [sendTransactions] at most once (there is no
    retry), only through the client in its closure, only with the
    two-call batch built from the three encodings, and it never writes
    the client cell. *)
Theorem enableRecovery_submits_at_most_once closure g :
  let run := events (enableRecovery K sdk closure g) in
  (List.length (submissions run) <= 1)%nat
  /\ client_writes run = []
  /\ forall c' batch,
      In (c', batch) (submissions run) ->
      closure = Some c'
      /\ recovery_encoded K sdk c' g batch
      /\ List.length batch = 2%nat
      /\ map to batch = [address (account c'); RECOVERY_MODULE_ADDR K].
Proof.
  cbv zeta. split; [|split; [apply enableRecovery_client_writes|]].
  - destruct closure as [c|]; [|cbn; lia].
    destruct (enableRecovery_submissions K sdk c g) as [->|[b [_ ->]]]; cbn; lia.
  - intros c' batch Hin.
    destruct closure as [c|]; [|contradiction].
    destruct (enableRecovery_submissions K sdk c g) as [E|[b [Henc E]]];
      rewrite E in Hin; [contradiction|].
    destruct Hin as [Heq|[]]. injection Heq as <- <-.
    split; [reflexivity|]. split; [exact Henc|].
    destruct Henc. split; reflexivity.
Qed.

(** X6.  When one of the three encodings throws, the failure is handled
    before the handler ever reaches an [await]: nothing is submitted, the
    action has no suspended state (the in-progress status is overwritten
    in the same synchronous run that set it), and the component ends with
    the status ["Recovery Setup Failed"], the loading flag down and its
    client kept.  The error cell holds the thrown value's message or the
    fallback text, and stays empty when the thrown value is [null] or
    [undefined]. *)
Theorem failed_encoding_never_suspends c g e st :
  encoding_fails K sdk g e ->
  let run := events (enableRecovery K sdk (Some c) g) in
  submissions run = []
  /\ frames st run = []
  /\ ~ In Suspend run
  /\ status_trace run = ["Configuring 3-of-5 Guardian Protocol...";
                         "Recovery Setup Failed"]
  /\ apply_events st run
     = {| smartClient := smartClient st;
          status := "Recovery Setup Failed";
          loading := false;
          error := match e with
                   | ThrownValue err =>
                       Some (Js.or_else (message err) "An unknown error occurred.")
                   | ThrownNull | ThrownUndefined => None
                   end |}.
Proof.
  intros Hfail run. subst run.
  split; [now apply enableRecovery_encoding_failure_submits_nothing with (e := e)|].
  assert (Hst := enableRecovery_encoding_failure_state K sdk random c g e st Hfail).
  unfold click in Hst. cbn [run_handler] in Hst.
  split; [|split; [|split; [|exact Hst]]]; clear Hst;
    destruct Hfail as [e H1|sd e H1 H2|sd d1 e H1 H2 H3];
    destruct e as [| |err];
    unfold_action;
    repeat match goal with
           | H : ?call = _ |- context [?call] => rewrite H; clear H; cbn
           end;
    try reflexivity;
    intros Hin; repeat (destruct Hin as [Hin|Hin]; [discriminate Hin|]);
    exact Hin.
Qed.

(** X7.  [enableRecovery] does not look at the guardian list: for a list
    of any length, the empty list included, it announces the 3-of-5
    protocol and asks for the encoding of that very list, in the order
    given, with threshold 3 and delay 172800. *)
Theorem enableRecovery_does_not_validate_guardians c g :
  let run := events (enableRecovery K sdk (Some c) g) in
  encodings run = [(g, 3, 172800)]
  /\ hd_error (status_trace run) = Some "Configuring 3-of-5 Guardian Protocol..."
  /\ hd_error (library_calls run)
     = Some (CallEncodeAbiParameters setup_params g 3 172800).
Proof.
  cbv zeta. split; [apply enableRecovery_encodings|].
  unfold_action. case_results; split; reflexivity.
Qed.

End Calls.

Lemma failed_encoding_never_suspends_witness :
  encoding_fails Double.constants Double.sdk sample_guardians
                 (Double.invalid_address "0xabcdef1234567890abcdef1234567890abcdef")
  /\ frames initial
            (events (enableRecovery Double.constants Double.sdk
                                    (Some Double.client) sample_guardians)) = [].
Proof.
  assert (H : encoding_fails Double.constants Double.sdk sample_guardians
                (Double.invalid_address "0xabcdef1234567890abcdef1234567890abcdef"))
    by (constructor 1; reflexivity).
  split; [exact H|].
  exact (proj1 (proj2 (failed_encoding_never_suspends
                         Double.constants Double.sdk Double.half Double.client
                         sample_guardians _ initial H))).
Defined.

(* ===================================================================== *)
(** * The component between and during actions *)
(* ===================================================================== *)

Section Session.

Variable K : Constants.

(** X8.  While an action is suspended at an [await], no button of the
    component can be pressed: both buttons are rendered disabled for as
    long as the loading flag is up.  Vault creation is suspended at least
    once, so the lock is really taken. *)
Theorem no_button_while_in_flight sdk random h st :
  starts_action h = true ->
  Forall (fun f => clickable (ShadowVault K f) = [])
         (frames st (events (run_handler K sdk random h)))
  /\ (h = OnCreateVault ->
      frames st (events (run_handler K sdk random h)) <> []).
Proof.
  intros Hs. split.
  - destruct (action_frames K sdk random h st Hs) as [t Ht].
    eapply Forall_impl; [|exact Ht].
    intros f <-. now apply view_loading_locked.
  - intros ->. cbn [run_handler].
    destruct (createVault_frames K sdk random st) as [n ->]. discriminate.
Qed.

Lemma interaction_cases st st' :
  interaction K st st' ->
  Js.truthy (PIMLICO_API_KEY K) = true
  /\ loading st = false
  /\ exists sdk random,
      (smartClient st = None /\ st' = click K sdk random st OnCreateVault)
      \/ (exists c, smartClient st = Some c
                    /\ st' = click K sdk random st
                                   (OnEnableRecovery (Some c) sample_guardians)).
Proof.
  intros [sdk random s h Hin].
  apply clickable_cases in Hin as [Hk [Hl Hh]].
  split; [exact Hk|]. split; [exact Hl|]. exists sdk, random.
  destruct Hh as [[Hn ->]|[c [Hc ->]]]; [left|right; exists c]; now split.
Qed.

(** X9.  Between two presses the component is always in one of seven
    display states: idle; creation failed (no client, a non-empty error);
    creation aborted (no client, the in-progress status left standing, no
    error); vault active; recovery live; recovery failed (client kept, a
    non-empty error); recovery aborted (client kept, the failure status
    without an error).  The loading flag is down in all of them.  This
    holds whatever the libraries answer or throw, [null] and [undefined]
    included, and whatever [Math.random] returns at each press. *)
Theorem session_states_are_display_states st :
  session K st -> at_rest st /\ loading st = false.
Proof.
  intros Hs.
  assert (H : at_rest st).
  { induction Hs as [|st st' _ IH Hstep]; [constructor|].
    apply interaction_cases in Hstep
      as [_ [_ [sdk [random [[Hn ->]|[c [Hc ->]]]]]]].
    - destruct (vault_fails_or_built K sdk random) as [[e He]|[c Hc]].
      + rewrite (createVault_failure_state K sdk random e st He), Hn.
        destruct e; cbn [is_nullish shown_error]; constructor.
        apply or_else_nonempty, unknown_error_nonempty.
      + rewrite (createVault_success_state K sdk random c st Hc). constructor.
    - destruct (recovery_outcomes K sdk c sample_guardians)
        as [[e He]|[[e He]|[batch [h Hh]]]].
      + rewrite (enableRecovery_encoding_failure_state K sdk random c _ e st He), Hc.
        destruct e; cbn [shown_error]; constructor.
        apply or_else_nonempty, unknown_error_nonempty.
      + rewrite (enableRecovery_submission_failure_state K sdk random c _ e st He), Hc.
        destruct e; cbn [shown_error]; constructor.
        apply or_else_nonempty, unknown_error_nonempty.
      + rewrite (enableRecovery_success_state K sdk random c _ batch h st Hh), Hc.
        constructor. }
  split; [exact H|]. destruct H; reflexivity.
Qed.

(** X10.  Between two presses an error message is held only when the
    status is one of the two failure texts, and a held message is never
    empty; the status ["Initialization Failed"] never comes without one.
    (["Recovery Setup Failed"] can: the handler sets it before it reads
    the thrown value's message.) *)
Theorem session_error_only_when_failed st :
  session K st ->
  ((exists m, error st = Some m) ->
   status st = "Initialization Failed" \/ status st = "Recovery Setup Failed")
  /\ (status st = "Initialization Failed" -> exists m, error st = Some m)
  /\ (forall m, error st = Some m -> m <> "").
Proof.
  intros Hs. destruct (session_states_are_display_states st Hs) as [H _].
  destruct H; cbn [error status]; (split; [|split]);
    try (intros [m' Hm]; discriminate Hm);
    try (intros Hf; discriminate Hf);
    try (intros m' Hm; first [discriminate Hm | injection Hm as <-; assumption]);
    try (intros _; eexists; reflexivity);
    try (intros _; (left; reflexivity) || (right; reflexivity)).
Qed.

(** X11.  Once a vault exists, no press removes or replaces it: the
    create button is no longer rendered and recovery enablement never
    writes the client cell. *)
Theorem interaction_keeps_the_vault st st' c :
  interaction K st st' ->
  smartClient st = Some c ->
  smartClient st' = Some c
  /\ handlers (ShadowVault K st') = [OnEnableRecovery (Some c) sample_guardians].
Proof.
  intros Hstep Hc.
  apply interaction_cases in Hstep
    as [Hk [_ [sdk [random [[Hn _]|[c' [Hc' ->]]]]]]].
  - rewrite Hn in Hc. discriminate Hc.
  - assert (E : smartClient (click K sdk random st
                               (OnEnableRecovery (Some c') sample_guardians))
                = Some c)
      by now rewrite enableRecovery_keeps_client.
    split; [exact E|]. now apply view_with_client.
Qed.

(** X12.  A failed vault creation can be retried: it leaves the create
    button as the only control, enabled, and a later attempt for which the
    libraries return a client stores it and clears the error. *)
Theorem failed_creation_can_be_retried sdk1 random1 sdk2 random2 e c st :
  Js.truthy (PIMLICO_API_KEY K) = true ->
  smartClient st = None ->
  vault_fails K sdk1 random1 e ->
  vault_built K sdk2 random2 c ->
  let failed := click K sdk1 random1 st OnCreateVault in
  let retried := click K sdk2 random2 failed OnCreateVault in
  clickable (ShadowVault K failed) = [OnCreateVault]
  /\ interaction K failed retried
  /\ smartClient retried = Some c
  /\ error retried = None
  /\ loading retried = false.
Proof.
  intros Hk Hn He Hc failed retried.
  assert (Hf : clickable (ShadowVault K failed) = [OnCreateVault]).
  { subst failed. rewrite (createVault_failure_state K sdk1 random1 e st He), Hn.
    unfold ShadowVault. rewrite Hk.
    destruct e as [| |err]; cbn -[Js.truthy]; try reflexivity.
    rewrite (or_else_truthy (message err) _ unknown_error_nonempty). reflexivity. }
  split; [exact Hf|]. split.
  - subst retried. constructor. rewrite Hf. now left.
  - subst retried.
    rewrite (createVault_success_state K sdk2 random2 c failed Hc).
    repeat split.
Qed.

(** X13.  After a successful vault creation the component shows the full
    account address and the truncated one in the status, and its only
    control is the guardian button, enabled and bound to the new client
    and to the guardian list written in the source. *)
Theorem created_vault_view sdk random c st :
  Js.truthy (PIMLICO_API_KEY K) = true ->
  vault_built K sdk random c ->
  let st' := click K sdk random st OnCreateVault in
  clickable (ShadowVault K st') = [OnEnableRecovery (Some c) sample_guardians]
  /\ In (address (account c)) (texts (ShadowVault K st'))
  /\ In (status st') (texts (ShadowVault K st'))
  /\ ~ In OnCreateVault (handlers (ShadowVault K st')).
Proof.
  intros Hk Hc st'. subst st'.
  rewrite (createVault_success_state K sdk random c st Hc).
  unfold ShadowVault, GuardianButton. rewrite Hk. cbn.
  repeat split; auto 10.
  intros [H|[]]. discriminate H.
Qed.

(** X14.  In both handlers, when the action fails with a thrown value
    other than [null] and [undefined], the handler returns normally and
    the error shown is the value's [message] when that is a non-empty
    string, and the fixed text ["An unknown error occurred."] when the
    message is missing or empty.  When the thrown value is [null] or
    [undefined], no error is shown, not even the fallback, and the handler
    itself ends with the [TypeError] of reading [message]. *)
Theorem error_message_fallback sdk random st h e :
  action_fails K sdk random h e ->
  let shown := error (click K sdk random st h) in
  let ended := result (run_handler K sdk random h) in
  match e with
  | ThrownValue err =>
      ended = Ok tt
      /\ ((message err = None \/ message err = Some "") ->
          shown = Some "An unknown error occurred.")
      /\ (forall m, message err = Some m -> m <> "" -> shown = Some m)
  | ThrownNull => ended = Throw (type_error "null") /\ shown = None
  | ThrownUndefined => ended = Throw (type_error "undefined") /\ shown = None
  end.
Proof.
  intros Hfail shown ended.
  assert (H : shown = shown_error e /\ ended = after_catch e).
  { subst shown ended. destruct h as [|[c|] g]; cbn [action_fails] in Hfail.
    - rewrite (createVault_failure_state K sdk random e st Hfail).
      split; [reflexivity|]. now apply createVault_failure_result.
    - destruct Hfail as [Hf|Hf].
      + rewrite (enableRecovery_encoding_failure_state K sdk random c g e st Hf).
        split; [reflexivity|]. now apply enableRecovery_encoding_failure_result.
      + rewrite (enableRecovery_submission_failure_state K sdk random c g e st Hf).
        split; [reflexivity|]. now apply enableRecovery_submission_failure_result.
    - contradiction. }
  destruct H as [-> ->].
  destruct e as [| |err]; cbn [shown_error after_catch]; try (split; reflexivity).
  split; [reflexivity|]. split.
  - intros [->| ->]; reflexivity.
  - intros m -> Hm. unfold Js.or_else.
    destruct (String.eqb_spec m ""); [contradiction|reflexivity].
Qed.

End Session.

Lemma no_button_while_in_flight_witness :
  starts_action OnCreateVault = true
  /\ Forall (fun f => clickable (ShadowVault Double.constants f) = [])
            (frames initial
                    (events (run_handler Double.constants Double.sdk Double.half
                                         OnCreateVault))).
Proof.
  split; [reflexivity|].
  exact (proj1 (no_button_while_in_flight Double.constants Double.sdk Double.half
                                          OnCreateVault initial eq_refl)).
Defined.

Lemma session_after_creation :
  session Double.constants
          (click Double.constants Double.sdk Double.half initial OnCreateVault).
Proof.
  eapply session_next; [apply session_start|].
  apply interaction_click. left. reflexivity.
Defined.

Lemma session_after_failed_creation :
  session Double.constants
          (click Double.constants Double.sdk Double.zero initial OnCreateVault).
Proof.
  eapply session_next; [apply session_start|].
  apply interaction_click. left. reflexivity.
Defined.

Lemma session_states_are_display_states_witness :
  session Double.constants
          (click Double.constants Double.sdk Double.half initial OnCreateVault)
  /\ at_rest (click Double.constants Double.sdk Double.half initial OnCreateVault).
Proof.
  split; [exact session_after_creation|].
  exact (proj1 (session_states_are_display_states Double.constants _
                  session_after_creation)).
Defined.

Lemma session_error_only_when_failed_witness :
  session Double.constants
          (click Double.constants Double.sdk Double.zero initial OnCreateVault)
  /\ forall m,
      error (click Double.constants Double.sdk Double.zero initial OnCreateVault)
      = Some m -> m <> "".
Proof.
  split; [exact session_after_failed_creation|].
  exact (proj2 (proj2 (session_error_only_when_failed Double.constants _
                         session_after_failed_creation))).
Defined.

Lemma interaction_keeps_the_vault_witness :
  let active := click Double.constants Double.sdk Double.half initial OnCreateVault in
  let pressed := click Double.constants Double.sdk Double.half active
                       (OnEnableRecovery (Some Double.client) sample_guardians) in
  interaction Double.constants active pressed
  /\ smartClient active = Some Double.client
  /\ smartClient pressed = Some Double.client.
Proof.
  intros active pressed.
  assert (Hi : interaction Double.constants active pressed).
  { subst pressed. apply interaction_click. left. reflexivity. }
  split; [exact Hi|]. split; [reflexivity|].
  exact (proj1 (interaction_keeps_the_vault Double.constants active pressed
                                            Double.client Hi eq_refl)).
Defined.

Lemma failed_creation_can_be_retried_witness :
  vault_fails Double.constants Double.sdk Double.zero Double.invalid_key
  /\ vault_built Double.constants Double.sdk Double.half Double.client
  /\ smartClient
       (click Double.constants Double.sdk Double.half
              (click Double.constants Double.sdk Double.zero initial OnCreateVault)
              OnCreateVault)
     = Some Double.client.
Proof.
  split; [exact vault_fails_on_zero_key|]. split; [exact vault_built_by_double|].
  exact (proj1 (proj2 (proj2
           (failed_creation_can_be_retried
              Double.constants Double.sdk Double.zero Double.sdk Double.half
              Double.invalid_key Double.client initial
              eq_refl eq_refl vault_fails_on_zero_key vault_built_by_double)))).
Defined.

Lemma created_vault_view_witness :
  vault_built Double.constants Double.sdk Double.half Double.client
  /\ clickable (ShadowVault Double.constants
                  (click Double.constants Double.sdk Double.half initial
                         OnCreateVault))
     = [OnEnableRecovery (Some Double.client) sample_guardians].
Proof.
  split; [exact vault_built_by_double|].
  exact (proj1 (created_vault_view Double.constants Double.sdk Double.half
                                   Double.client initial eq_refl
                                   vault_built_by_double)).
Defined.

Lemma vault_fails_namelessly :
  vault_fails Double.constants Faulty.sdk Double.half Faulty.nameless.
Proof. apply owner_provisioning_fails. reflexivity. Defined.

Lemma error_message_fallback_witness :
  action_fails Double.constants Faulty.sdk Double.half OnCreateVault Faulty.nameless
  /\ message Faulty.nameless = None
  /\ error (click Double.constants Faulty.sdk Double.half initial OnCreateVault)
     = Some "An unknown error occurred.".
Proof.
  split; [exact vault_fails_namelessly|]. split; [reflexivity|].
  exact (proj1 (proj2 (error_message_fallback
                         Double.constants Faulty.sdk Double.half initial
                         OnCreateVault Faulty.nameless vault_fails_namelessly))
               (or_introl eq_refl)).
Defined.
